(** * Gmail summary pipeline: a shallow embedding of [main.py]

    The definitions come first, leaves before their callers: the Python
    string primitives the program relies on, the phone formatter
    ([format_phone_number]), the response parser ([parse_ollama_response]),
    the paginated lister ([get_all_unread_messages]), the MIME walk
    ([extract_email_content]), the row builder and sheet writer
    ([append_single_email_to_sheet]), the read-state gate
    ([mark_email_as_read]), the per-message loop of [main], the sheet
    provisioning ([test_sheet_access], [setup_sheet_headers]) and
    [get_google_credentials]. The properties follow.

    Conventions.
    - A Python [str] is a Rocq [string]; a character is identified with
      its code point, so the model covers the code points below 256.
      The character classes below are Python's, restricted to that range.
    - [time.sleep] is not modelled. The prints of the parser are modelled
      in [parse_ollama_response_printing]; [parse_ollama_response] is the
      record the parser computes, which is what it returns when its prints
      go through. The other prints are not modelled.
    - Code that can raise lives in an error monad ([Res]) or, when it
      also talks to the collaborators, in a state-and-error monad ([M])
      whose state survives a raise, as Python's does. *)

From Stdlib Require Import String Ascii List ZArith Lia Bool DecimalString.
From stdpp Require Import gmap strings list.

Set Warnings "-register-all,-abstract-large-number".

(** ** Python string primitives *)

Module Py.

Definition ord (c : ascii) : nat := nat_of_ascii c.

Definition between (lo hi n : nat) : bool := (lo <=? n) && (n <=? hi).

(** [str.isspace] on one character: TAB..CR, FS..US, SPACE, NEL, NBSP. *)
Definition isspace (c : ascii) : bool :=
  let n := ord c in
  between 9 13 n || between 28 32 n || (n =? 133) || (n =? 160).

(** [str.isdigit] on one character: 0-9 and the superscripts 1, 2, 3. *)
Definition isdigit (c : ascii) : bool :=
  let n := ord c in
  between 48 57 n || (n =? 178) || (n =? 179) || (n =? 185).

(** [str.lower] on one character: A-Z and the accented capitals
    U+00C0..U+00DE (the multiplication sign U+00D7 excepted). *)
Definition lower_char (c : ascii) : ascii :=
  let n := ord c in
  if between 65 90 n || (between 192 222 n && negb (n =? 215))
  then ascii_of_nat (n + 32) else c.

Fixpoint lower (s : string) : string :=
  match s with
  | EmptyString => EmptyString
  | String c r => String (lower_char c) (lower r)
  end.

Fixpoint lstrip (s : string) : string :=
  match s with
  | EmptyString => EmptyString
  | String c r => if isspace c then lstrip r else s
  end.

Fixpoint rstrip (s : string) : string :=
  match s with
  | EmptyString => EmptyString
  | String c r =>
      match rstrip r with
      | EmptyString => if isspace c then EmptyString else String c EmptyString
      | r' => String c r'
      end
  end.

(** [s.strip()] *)
Definition strip (s : string) : string := lstrip (rstrip s).

(** [''.join(filter(p, s))] *)
Fixpoint filter (p : ascii -> bool) (s : string) : string :=
  match s with
  | EmptyString => EmptyString
  | String c r => if p c then String c (filter p r) else filter p r
  end.

(** [s[:n]] *)
Fixpoint take (n : nat) (s : string) : string :=
  match n, s with
  | S k, String c r => String c (take k r)
  | _, _ => EmptyString
  end.

(** [s[n:]] *)
Fixpoint drop (n : nat) (s : string) : string :=
  match n, s with
  | S k, String _ r => drop k r
  | _, _ => s
  end.

(** [s[a:b]] for [a <= b] *)
Definition slice (a b : nat) (s : string) : string := take (b - a) (drop a s).

(** [s.startswith(w)] *)
Fixpoint startswith (w s : string) : bool :=
  match w, s with
  | EmptyString, _ => true
  | String a w', String b s' => Ascii.eqb a b && startswith w' s'
  | String _ _, EmptyString => false
  end.

(** [w in s] for two strings *)
Fixpoint contains (w s : string) : bool :=
  startswith w s ||
  match s with
  | EmptyString => false
  | String _ r => contains w r
  end.

(** truth value of a string: [if s:] *)
Definition truthy (s : string) : bool :=
  match s with EmptyString => false | _ => true end.

(** [any(word in s for word in words)] *)
Definition any_in (words : list string) (s : string) : bool :=
  existsb (fun w => contains w s) words.

(** [s in xs] for a list of strings *)
Definition mem (s : string) (xs : list string) : bool :=
  existsb (String.eqb s) xs.

End Py.

(** ** The formula guard

    The source repeats one guard four times (summary, name, email, and the
    unformatted phone): [if x and x[0] in ['=', '+', '-', '@']: x = "'" + x]. *)

Definition formula_trigger (c : ascii) : bool :=
  Ascii.eqb c "=" || Ascii.eqb c "+" || Ascii.eqb c "-" || Ascii.eqb c "@".

Definition guard_formula (x : string) : string :=
  match x with
  | String c _ => if formula_trigger c then String "'" x else x
  | EmptyString => x
  end.

(** ** format_phone_number *)

Definition format_phone_number (phone : string) : string :=
  if negb (Py.truthy phone) then ""
  else
    let digits := Py.filter Py.isdigit phone in
    if String.length digits =? 10 then
      "(" +:+ Py.take 3 digits +:+ ") " +:+ Py.slice 3 6 digits +:+ "-" +:+ Py.drop 6 digits
    else if (String.length digits =? 11) && Py.startswith "1" digits then
      let digits := Py.drop 1 digits in
      "(" +:+ Py.take 3 digits +:+ ") " +:+ Py.slice 3 6 digits +:+ "-" +:+ Py.drop 6 digits
    else if String.length digits =? 7 then
      Py.take 3 digits +:+ "-" +:+ Py.drop 3 digits
    else
      let safe_phone := Py.strip phone in
      guard_formula safe_phone.

(** ** Exceptions and the error monad *)

(** The exception classes the modelled code can meet; all of them derive
    from Python's [Exception]. *)
Inductive exn : Type :=
  | JSONDecodeError
  | AttributeError
  | KeyError
  | DecodeError          (* binascii.Error out of base64 *)
  | ServiceError.        (* a collaborator call failed *)

Inductive Res (A : Type) : Type :=
  | Ok (a : A)
  | Raise (e : exn).
Arguments Ok {A} a.
Arguments Raise {A} e.

Definition res_bind {A B : Type} (m : Res A) (k : A -> Res B) : Res B :=
  match m with
  | Ok a => k a
  | Raise e => Raise e
  end.

Declare Scope res_scope.
Delimit Scope res_scope with res.
Notation "x <- m ;;; k" := (res_bind m (fun x => k))
  (at level 100, m at next level, right associativity) : res_scope.

(** ** Decoded JSON: the Python objects [json.loads] builds *)

Inductive pyfloat : Type :=
  | Finite (m e : Z)          (* m * 2^e *)
  | Infinite (negative : bool)
  | NaN.

Inductive value : Type :=
  | VNone
  | VBool (b : bool)
  | VInt (z : Z)
  | VFloat (f : pyfloat)
  | VStr (s : string)
  | VList (l : list value)
  | VDict (d : list (string * value)).     (* one binding per key *)

Module PyValue.

(** [d.get(key)], [None] standing for an absent key *)
Fixpoint lookup (key : string) (d : list (string * value)) : option value :=
  match d with
  | [] => None
  | (k, v) :: r => if String.eqb k key then Some v else lookup key r
  end.

(** truth value of an object: [if v:] *)
Definition truthy (v : value) : bool :=
  match v with
  | VNone => false
  | VBool b => b
  | VInt z => negb (Z.eqb z 0)
  | VFloat (Finite m _) => negb (Z.eqb m 0)
  | VFloat _ => true
  | VStr s => Py.truthy s
  | VList l => match l with [] => false | _ => true end
  | VDict d => match d with [] => false | _ => true end
  end.

(** [obj.get(key, default)]: only a dict has the method *)
Definition get (obj : value) (key : string) (dflt : value) : Res value :=
  match obj with
  | VDict d => Ok (default dflt (lookup key d))
  | _ => Raise AttributeError
  end.

End PyValue.

(** ** parse_ollama_response *)

Record Contact : Type := mkContact {
  name : string;
  email : string;
  phone : string
}.

Record ExtractionRecord : Type := mkRecord {
  summary : string;
  contacts : list Contact;
  assistance_type : string
}.

(** [re.search(r'\{.*\}', s, re.DOTALL)]: the leftmost match starts at the
    first opening brace and, [.*] being greedy and crossing newlines, ends
    at the last closing brace after it. *)
Module Re.

(** what follows the first ['{'] *)
Fixpoint after_first_open (s : string) : option string :=
  match s with
  | EmptyString => None
  | String c r => if Ascii.eqb c "{" then Some r else after_first_open r
  end.

(** the longest prefix that ends in ['}'] *)
Fixpoint upto_last_close (s : string) : option string :=
  match s with
  | EmptyString => None
  | String c r =>
      match upto_last_close r with
      | Some p => Some (String c p)
      | None => if Ascii.eqb c "}" then Some (String c EmptyString) else None
      end
  end.

(** [json_match.group(0)], [None] when there is no match *)
Definition search_braces (s : string) : option string :=
  match after_first_open s with
  | Some r => option_map (String "{") (upto_last_close r)
  | None => None
  end.

End Re.

(** lines 183-190: the assistance type is forced into the enumeration *)
Definition standardize_assistance_type (t : string) : string :=
  if negb (Py.mem t ["requesting"; "providing"]) then
    if Py.any_in ["request"; "need"; "looking"; "seeking"] t then "requesting"
    else if Py.any_in ["provid"; "offer"; "available"; "help"] t then "providing"
    else "unknown"
  else t.

(** lines 204-209: the fallback response *)
Definition fallback_response (ollama_output : string) : ExtractionRecord :=
  {| summary := "Parsing failed - Raw output: " +:+ Py.take 100 ollama_output;
     contacts := [];
     assistance_type := "unknown" |}.

Section ResponseParser.

(** [json.loads], a library call: it returns the decoded object or raises. *)
Variable json_loads : string -> Res value.
(** [repr] of floats and containers, which [str] falls back to. *)
Variable py_repr : value -> string.

(** [str(v)] *)
Definition py_str (v : value) : string :=
  match v with
  | VStr s => s
  | VNone => "None"
  | VBool true => "True"
  | VBool false => "False"
  | VInt z => DecimalString.NilZero.string_of_int (Z.to_int z)
  | _ => py_repr v
  end.

(** [v.strip()]: only a [str] has the method *)
Definition str_strip (v : value) : Res string :=
  match v with
  | VStr s => Ok (Py.strip s)
  | _ => Raise AttributeError
  end.

(** [str(contact.get(k, '')).strip() if contact.get(k) else ''] *)
Definition clean_field (contact : list (string * value)) (k : string) : string :=
  match PyValue.lookup k contact with
  | Some v => if PyValue.truthy v then Py.strip (py_str v) else ""
  | None => ""
  end.

(** lines 172-181: one pass of the loop over [raw_contacts] *)
Definition clean_contact (contact : value) : list Contact :=
  match contact with
  | VDict d =>
      let c := {| name := clean_field d "name";
                  email := clean_field d "email";
                  phone := clean_field d "phone" |} in
      if Py.truthy (name c) || Py.truthy (email c) || Py.truthy (phone c)
      then [c] else []
  | _ => []
  end.

Definition clean_contacts (raw_contacts : value) : list Contact :=
  match raw_contacts with
  | VList l => concat (map clean_contact l)
  | _ => []
  end.

(** The body of the [try] (lines 154-196). [Ok None] is the path that
    leaves the [try] without returning, when the regular expression does
    not match. *)
Definition parse_try (ollama_output : string) : Res (option ExtractionRecord) :=
  match Re.search_braces ollama_output with
  | Some json_str =>
      (parsed <- json_loads json_str ;;;
       s <- PyValue.get parsed "summary" (VStr "No summary provided") ;;;
       s <- str_strip s ;;;
       t <- PyValue.get parsed "assistance_type" (VStr "unknown") ;;;
       t <- str_strip t ;;;
       raw_contacts <- PyValue.get parsed "contacts" (VList []) ;;;
       Ok (Some {| summary := s;
                   contacts := clean_contacts raw_contacts;
                   assistance_type := standardize_assistance_type (Py.lower t) |}))%res
  | None => Ok None
  end.

(** Both handlers ([json.JSONDecodeError], [Exception]) only print, so
    every raise of the body falls through to the fallback. The prints
    themselves are in [parse_ollama_response_printing]. *)
Definition parse_ollama_response (ollama_output : string) : Res ExtractionRecord :=
  match parse_try ollama_output with
  | Ok (Some result) => Ok result
  | Ok None => Ok (fallback_response ollama_output)
  | Raise JSONDecodeError => Ok (fallback_response ollama_output)
  | Raise _ => Ok (fallback_response ollama_output)
  end.

End ResponseParser.

(** ** get_all_unread_messages *)

(** One response of [users().messages().list(...)]: the identifiers under
    ['messages'] (an absent key reads as the empty list) and the cursor
    under ['nextPageToken']. *)
Record ListPage : Type := mkPage {
  messages : list string;
  nextPageToken : option string
}.

Section MessageLister.

(** The mail collaborator: the query and the cursor of the request give a
    page, or the call raises. The first request carries no cursor. *)
Variable messages_list : string -> option string -> Res ListPage.

(** The [while True] loop (lines 328-362), one unit of fuel per page
    request; [None] is a loop cut off by the fuel, not a Python result. *)
Fixpoint list_pages (fuel : nat) (query : string)
    (all_messages : list string) (next_page_token : option string)
    : option (list string) :=
  match fuel with
  | O => None
  | S fuel' =>
      match messages_list query next_page_token with
      | Raise _ => Some all_messages                        (* except: break *)
      | Ok results =>
          let all_messages := all_messages ++ messages results in
          match nextPageToken results with
          | Some (String c t) =>
              list_pages fuel' query all_messages (Some (String c t))
          | _ => Some all_messages                          (* no cursor: break *)
          end
      end
  end.

Definition get_all_unread_messages (fuel : nat) (query : string)
    : option (list string) :=
  list_pages fuel query [] None.

End MessageLister.

(** ** Messages and their MIME tree *)

Record Header : Type := mkHeader {
  header_name : string;
  header_value : string
}.

(** A MIME part as the mail API returns it: [part['mimeType']],
    the headers, [part['body'].get('data')] and [part.get('parts', [])]. *)
Inductive Part : Type :=
  mkPart (mimeType : string) (headers : list Header)
         (data : option string) (parts : list Part).

Record Message : Type := mkMessage {
  labelIds : list string;      (* an absent key reads as [] *)
  payload : option Part        (* an absent key reads as {} *)
}.

Section Extractors.

(** [base64.urlsafe_b64decode(data).decode('utf-8', errors='replace')] *)
Variable b64decode_utf8 : string -> Res string.
(** [parsedate_to_datetime(date_str).strftime("%Y-%m-%d %H:%M:%S")] *)
Variable format_date : string -> Res string.

(** [find_text], the depth-first search of [extract_email_content] *)
Fixpoint find_text (part : Part) : Res string :=
  match part with
  | mkPart mimeType _ data parts =>
      match (if String.eqb mimeType "text/plain" then data else None) with
      | Some d => b64decode_utf8 d
      | None =>
          (fix first_text (subparts : list Part) : Res string :=
             match subparts with
             | [] => Ok ""
             | subpart :: rest =>
                 (text <- find_text subpart ;;;
                  if Py.truthy text then Ok text else first_text rest)%res
             end) parts
      end
  end.

(** [find_text({})] raises on [part['mimeType']]. *)
Definition extract_email_content (message : Message) : Res string :=
  match payload message with
  | Some p => find_text p
  | None => Raise KeyError
  end.

Fixpoint first_date_header (hs : list Header) : string :=
  match hs with
  | [] => ""
  | h :: rest =>
      if String.eqb (Py.lower (header_name h)) "date" then
        match format_date (header_value h) with
        | Ok s => s
        | Raise _ => header_value h
        end
      else first_date_header rest
  end.

Definition extract_email_date (message : Message) : string :=
  match payload message with
  | Some (mkPart _ headers _ _) => first_date_header headers
  | None => ""
  end.

End Extractors.

(** ** Rows of the sheet *)

Module EmailData.
(** the dict [email_data] built by [main] (lines 598-604) *)
Record t : Type := mk {
  email_link : string;
  summary : string;
  contacts : list Contact;
  assistance_type : string;
  sent_day : string
}.
End EmailData.

(** [(contact.get(k) or '').strip() if contact.get(k) else ''] *)
Definition safe_field (x : string) : string :=
  if Py.truthy x then Py.strip x else "".

(** lines 430-454: the row of one contact *)
Definition contact_row (summary assistance_type sent_day email_link : string)
    (contact : Contact) : list string :=
  let contact_name := safe_field (name contact) in
  let contact_email := safe_field (email contact) in
  let raw_phone := safe_field (phone contact) in
  let contact_phone := format_phone_number raw_phone in
  let contact_name := guard_formula contact_name in
  let contact_email := guard_formula contact_email in
  [contact_name; contact_email; contact_phone;
   summary; assistance_type; sent_day; email_link].

(** lines 411-466: the list [values] *)
Definition build_rows (email_data : EmailData.t) : list (list string) :=
  let contacts := EmailData.contacts email_data in
  let summary := guard_formula (EmailData.summary email_data) in
  let assistance_type := EmailData.assistance_type email_data in
  let sent_day := EmailData.sent_day email_data in
  let email_link := EmailData.email_link email_data in
  match contacts with
  | _ :: _ => map (contact_row summary assistance_type sent_day email_link) contacts
  | [] => [[""; ""; ""; summary; assistance_type; sent_day; email_link]]
  end.

(** ** The collaborators and the state of a run *)

Definition MARK_AS_READ_AFTER_PROCESSING : bool := true.

(** The requests the per-message loop sends out. [Generate] carries the
    truncated content, which is all of the prompt that varies. *)
Inductive Call : Type :=
  | MessagesGet (id : string)
  | Generate (content : string)
  | ValuesAppend (values : list (list string))
  | MessagesModify (id : string).

(** The mailbox, the sheet, and the requests sent so far, each with whether
    it returned ([true]) or raised ([false]). *)
Record World : Type := mkWorld {
  mailbox : gmap string Message;
  sheet : list (list string);
  calls : list (Call * bool)
}.

Record Counters : Type := mkCounters {
  successful_processed : nat;
  failed_processed : nat;
  emails_marked_read : nat;
  sheet_updates_successful : nat;
  sheet_updates_failed : nat
}.

Record Run : Type := mkRun {
  world : World;
  counters : Counters
}.

(** State and error: a raise keeps the state reached so far. *)
Definition M (A : Type) : Type := Run -> Res A * Run.

Definition ret {A : Type} (a : A) : M A := fun r => (Ok a, r).

Definition raise {A : Type} (e : exn) : M A := fun r => (Raise e, r).

Definition bind {A B : Type} (m : M A) (k : A -> M B) : M B :=
  fun r =>
    match m r with
    | (Ok a, r') => k a r'
    | (Raise e, r') => (Raise e, r')
    end.

(** [try: m  except Exception: h] *)
Definition try_except {A : Type} (m : M A) (h : exn -> M A) : M A :=
  fun r =>
    match m r with
    | (Ok a, r') => (Ok a, r')
    | (Raise e, r') => h e r'
    end.

Definition lift {A : Type} (x : Res A) : M A := fun r => (x, r).

Declare Scope run_scope.
Delimit Scope run_scope with run.
Notation "x <- m ;; k" := (bind m (fun x => k))
  (at level 100, m at next level, right associativity) : run_scope.
Notation "m ;; k" := (bind m (fun _ => k))
  (at level 100, right associativity) : run_scope.

Definition update_counters (f : Counters -> Counters) : M unit :=
  fun r => (Ok tt, {| world := world r; counters := f (counters r) |}).

Definition successful_processed_incr (c : Counters) : Counters :=
  {| successful_processed := S (successful_processed c);
     failed_processed := failed_processed c;
     emails_marked_read := emails_marked_read c;
     sheet_updates_successful := sheet_updates_successful c;
     sheet_updates_failed := sheet_updates_failed c |}.

Definition failed_processed_incr (c : Counters) : Counters :=
  {| successful_processed := successful_processed c;
     failed_processed := S (failed_processed c);
     emails_marked_read := emails_marked_read c;
     sheet_updates_successful := sheet_updates_successful c;
     sheet_updates_failed := sheet_updates_failed c |}.

Definition emails_marked_read_incr (c : Counters) : Counters :=
  {| successful_processed := successful_processed c;
     failed_processed := failed_processed c;
     emails_marked_read := S (emails_marked_read c);
     sheet_updates_successful := sheet_updates_successful c;
     sheet_updates_failed := sheet_updates_failed c |}.

Definition sheet_updates_successful_incr (c : Counters) : Counters :=
  {| successful_processed := successful_processed c;
     failed_processed := failed_processed c;
     emails_marked_read := emails_marked_read c;
     sheet_updates_successful := S (sheet_updates_successful c);
     sheet_updates_failed := sheet_updates_failed c |}.

Definition sheet_updates_failed_incr (c : Counters) : Counters :=
  {| successful_processed := successful_processed c;
     failed_processed := failed_processed c;
     emails_marked_read := emails_marked_read c;
     sheet_updates_successful := sheet_updates_successful c;
     sheet_updates_failed := S (sheet_updates_failed c) |}.

(** [removeLabelIds: ['UNREAD']] on one message *)
Definition remove_unread (m : Message) : Message :=
  {| labelIds := List.filter (fun l => negb (String.eqb l "UNREAD")) (labelIds m);
     payload := payload m |}.

Section Services.

(** Which requests fail is up to the collaborators: [fault w c] says
    whether request [c], sent in world [w], raises. *)
Variable fault : World -> Call -> bool.
(** The text the model answers with. *)
Variable model_reply : World -> string -> string.

Definition logged (w : World) (c : Call) (ok : bool) : list (Call * bool) :=
  calls w ++ [(c, ok)].

(** A request: it is logged; if it goes through, [effect] gives the answer
    and the new mailbox and sheet. A request that raises changes neither. *)
Definition request {A : Type} (c : Call)
    (effect : World -> option (A * gmap string Message * list (list string)))
    : M A :=
  fun r =>
    let w := world r in
    match (if fault w c then None else effect w) with
    | Some (a, mb, sh) =>
        (Ok a, {| world := {| mailbox := mb; sheet := sh; calls := logged w c true |};
                  counters := counters r |})
    | None =>
        (Raise ServiceError,
         {| world := {| mailbox := mailbox w; sheet := sheet w;
                        calls := logged w c false |};
            counters := counters r |})
    end.

(** [users().messages().get(userId='me', id=..., format='full').execute()] *)
Definition messages_get (id : string) : M Message :=
  request (MessagesGet id)
    (fun w => match mailbox w !! id with
              | Some m => Some (m, mailbox w, sheet w)
              | None => None
              end).

(** [users().messages().modify(..., body={'removeLabelIds': ['UNREAD']}).execute()] *)
Definition messages_modify (id : string) : M unit :=
  request (MessagesModify id)
    (fun w => match mailbox w !! id with
              | Some m => Some (tt, <[id := remove_unread m]> (mailbox w), sheet w)
              | None => None
              end).

(** [spreadsheets().values().append(..., body={'values': values}).execute()] *)
Definition values_append (values : list (list string)) : M unit :=
  request (ValuesAppend values)
    (fun w => Some (tt, mailbox w, sheet w ++ values)).

(** [ollama.generate(model=..., prompt=...)['response']] *)
Definition ollama_generate (content : string) : M string :=
  request (Generate content)
    (fun w => Some (model_reply w content, mailbox w, sheet w)).

End Services.

(** ** The pipeline: sheet writer, read-state gate and the loop of [main] *)

Section Orchestrator.

Variable fault : World -> Call -> bool.
Variable model_reply : World -> string -> string.
Variable json_loads : string -> Res value.
Variable py_repr : value -> string.
Variable b64decode_utf8 : string -> Res string.
Variable format_date : string -> Res string.

(** lines 124-150; the prompt embeds [email_content[:10000]] *)
Definition process_email_with_ollama (email_content : string) : M string :=
  ollama_generate fault model_reply (Py.take 10000 email_content).

(** lines 367-378 *)
Definition mark_email_as_read (message_id : string) : M bool :=
  try_except
    (messages_modify fault message_id ;; ret true)%run
    (fun _ => ret false).

(** lines 407-496 *)
Definition append_single_email_to_sheet (email_data : EmailData.t) : M bool :=
  try_except
    (let values := build_rows email_data in
     values_append fault values ;; ret true)%run
    (fun _ => ret false).

(** lines 567-625: the body of the [try] for one listed message; the
    early [continue]s are the early [ret tt]s. *)
Definition process_message (message_id : string) : M unit :=
  (msg <- messages_get fault message_id ;;
   let labels := labelIds msg in
   if negb (Py.mem "UNREAD" labels) then ret tt
   else
     email_content <- lift (extract_email_content b64decode_utf8 msg) ;;
     if negb (Py.truthy email_content) then
       update_counters failed_processed_incr
     else
       let sent_day := extract_email_date format_date msg in
       let email_link := "https://mail.google.com/mail/u/0/#inbox/" +:+ message_id in
       ollama_response <- process_email_with_ollama email_content ;;
       parsed_data <- lift (parse_ollama_response json_loads py_repr ollama_response) ;;
       let email_data :=
         {| EmailData.email_link := email_link;
            EmailData.summary := summary parsed_data;
            EmailData.contacts := contacts parsed_data;
            EmailData.assistance_type := assistance_type parsed_data;
            EmailData.sent_day := sent_day |} in
       ok <- append_single_email_to_sheet email_data ;;
       if ok then
         update_counters sheet_updates_successful_incr ;;
         update_counters successful_processed_incr ;;
         if MARK_AS_READ_AFTER_PROCESSING then
           marked <- mark_email_as_read message_id ;;
           if marked then update_counters emails_marked_read_incr else ret tt
         else ret tt
       else
         update_counters sheet_updates_failed_incr)%run.

(** lines 565-630: one turn of the [for] loop, with its handler *)
Definition main_step (message_id : string) : M unit :=
  try_except (process_message message_id)
             (fun _ => update_counters failed_processed_incr).

(** the [for] loop over the listed messages *)
Fixpoint main_loop (messages : list string) (r : Run) : Run :=
  match messages with
  | [] => r
  | message_id :: rest => main_loop rest (snd (main_step message_id r))
  end.

(** The requests one turn of the loop added to the log. *)
Definition sent_by (r r' : Run) : list (Call * bool) :=
  List.skipn (length (calls (world r))) (calls (world r')).

End Orchestrator.

(** ** Vocabulary of the statements *)

(** The value begins with one of [=], [+], [-], [@]. *)
Definition begins_with_trigger (x : string) : Prop :=
  exists c r, x = String c r /\ In c ["="; "+"; "-"; "@"]%char.

(** [v] is [x] made literal: escaped when [x] begins with a trigger,
    untouched otherwise. *)
Definition neutralized (x v : string) : Prop :=
  (begins_with_trigger x -> v = String "'" x) /\
  (~ begins_with_trigger x -> v = x).

(** The digit characters of a phone, in order. *)
Definition digits_of (phone : string) : string := Py.filter Py.isdigit phone.

(** The phone as laid out, before the guard: the three layouts of the
    formatter, or the trimmed input when none applies. *)
Definition phone_layout (phone : string) : string :=
  let digits := Py.filter Py.isdigit phone in
  if String.length digits =? 10 then
    "(" +:+ Py.take 3 digits +:+ ") " +:+ Py.slice 3 6 digits +:+ "-" +:+ Py.drop 6 digits
  else if (String.length digits =? 11) && Py.startswith "1" digits then
    "(" +:+ Py.take 3 (Py.drop 1 digits) +:+ ") " +:+ Py.slice 3 6 (Py.drop 1 digits)
        +:+ "-" +:+ Py.drop 6 (Py.drop 1 digits)
  else if String.length digits =? 7 then
    Py.take 3 digits +:+ "-" +:+ Py.drop 3 digits
  else Py.strip phone.



(** A double quote, for spelling JSON texts. *)
Definition dq : string := String (ascii_of_nat 34) EmptyString.

(** A decoder that knows two texts, for running the parser on examples: an
    object whose assistance type is [ Need Help ], spaces included, and an
    object whose summary is the number 7. *)
Definition sample_loads (s : string) : Res value :=
  if String.eqb s ("{" +:+ dq +:+ "assistance_type" +:+ dq +:+ ": "
                       +:+ dq +:+ " Need Help " +:+ dq +:+ "}")
  then Ok (VDict [("assistance_type", VStr " Need Help ")])
  else if String.eqb s ("{" +:+ dq +:+ "summary" +:+ dq +:+ ": 7}")
  then Ok (VDict [("summary", VInt 7)])
  else Raise JSONDecodeError.

Definition sample_repr (v : value) : string := "".

(** The page ends the listing: no cursor, or an empty one. *)
Definition no_cursor (page : ListPage) : Prop :=
  nextPageToken page = None \/ nextPageToken page = Some EmptyString.

(** [serves messages_list query cursor pages failed]: asked from [cursor]
    on, the collaborator answers with [pages] one after the other, each but
    the last carrying the cursor of the next request; the exchange ends with
    a page without cursor ([failed = false]) or with a request that raises
    after the pages listed ([failed = true]). *)
Inductive serves (messages_list : string -> option string -> Res ListPage)
    (query : string) : option string -> list ListPage -> bool -> Prop :=
  | serves_last cursor page :
      messages_list query cursor = Ok page ->
      no_cursor page ->
      serves messages_list query cursor [page] false
  | serves_raise cursor e :
      messages_list query cursor = Raise e ->
      serves messages_list query cursor [] true
  | serves_next cursor page c t pages failed :
      messages_list query cursor = Ok page ->
      nextPageToken page = Some (String c t) ->
      serves messages_list query (Some (String c t)) pages failed ->
      serves messages_list query cursor (page :: pages) failed.

(** The number of requests an exchange takes. *)
Definition requests (pages : list ListPage) (failed : bool) : nat :=
  length pages + (if failed then 1 else 0).

(** A mailbox of 1200 matches served in pages of 500, 500 and 200; with
    [broken] set, the third request raises. *)
Definition sample_list (broken : bool) (query : string) (cursor : option string)
    : Res ListPage :=
  match cursor with
  | None => Ok (mkPage (repeat "a" 500) (Some "p2"))
  | Some t =>
      if String.eqb t "p2" then Ok (mkPage (repeat "b" 500) (Some "p3"))
      else if String.eqb t "p3" then
        if broken then Raise ServiceError else Ok (mkPage (repeat "c" 200) None)
      else Raise ServiceError
  end.

(** A log without a sheet append and without a label change. *)
Definition quiet (log : list (Call * bool)) : bool :=
  forallb (fun e => match fst e with
                    | ValuesAppend _ | MessagesModify _ => false
                    | _ => true
                    end) log.

(** One unread message with a plain-text body, and collaborators that
    answer it; [refuse] picks the requests that raise. *)
Definition sample_message : Message :=
  mkMessage ["UNREAD"; "INBOX"]
    (Some (mkPart "text/plain" [mkHeader "Date" "today"] (Some "Jane needs help") [])).

Definition sample_world : World :=
  mkWorld {[ "m1" := sample_message;
             "m2" := mkMessage ["INBOX"] (payload sample_message);
             "m3" := mkMessage ["UNREAD"] (Some (mkPart "text/html" [] (Some "x") [])) ]}
          [] [].

Definition sample_run : Run := mkRun sample_world (mkCounters 0 0 0 0 0).

Definition sample_reply (w : World) (content : string) : string :=
  "{" +:+ dq +:+ "assistance_type" +:+ dq +:+ ": " +:+ dq +:+ " Need Help " +:+ dq +:+ "}".

Definition no_fault (w : World) (c : Call) : bool := false.

Definition append_fault (w : World) (c : Call) : bool :=
  match c with ValuesAppend _ => true | _ => false end.

(** Every character of [s] satisfies [p]. *)
Fixpoint all_chars (p : ascii -> bool) (s : string) : bool :=
  match s with
  | EmptyString => true
  | String c r => p c && all_chars p r
  end.

(** A decoder for one text: an object with two contacts, the second made
    of blanks. *)
Definition contacts_loads (s : string) : Res value :=
  if String.eqb s "{two contacts}" then
    Ok (VDict [("summary", VStr "s"); ("assistance_type", VStr "providing");
               ("contacts",
                VList [VDict [("name", VStr " Jane "); ("phone", VInt 5551234)];
                       VDict [("name", VStr "   "); ("email", VNone)];
                       VStr "not an object"])])
  else Raise JSONDecodeError.



(** [isinstance(v, str)] *)
Definition is_str (v : value) : bool :=
  match v with VStr _ => true | _ => false end.

(** A collaborator that always has one more page. *)
Definition endless_list (query : string) (cursor : option string) : Res ListPage :=
  Ok (mkPage ["m"] (Some "more")).

(** The inline data of the text/plain parts of a tree, in document order.
    What lies below a text/plain part with data is left out: the search
    does not look there. *)
Fixpoint plain_datas (part : Part) : list string :=
  match part with
  | mkPart mimeType _ data parts =>
      match (if String.eqb mimeType "text/plain" then data else None) with
      | Some d => [d]
      | None =>
          (fix below (subparts : list Part) : list string :=
             match subparts with
             | [] => []
             | subpart :: rest => plain_datas subpart ++ below rest
             end) parts
      end
  end.

(** Decode in turn and stop at the first text that is not empty, or at the
    first raise; the empty text when nothing is left. *)
Fixpoint first_decoded (decode : string -> Res string) (ds : list string) : Res string :=
  match ds with
  | [] => Ok ""
  | d :: rest =>
      match decode d with
      | Ok t => if Py.truthy t then Ok t else first_decoded decode rest
      | Raise e => Raise e
      end
  end.

(** The lowercased name of the header is [date]. *)
Definition is_date_header (h : Header) : bool :=
  String.eqb (Py.lower (header_name h)) "date".

(** A multipart message: an HTML part, then a plain part whose data is
    empty, then a plain part with text. *)
Definition sample_multipart : Part :=
  mkPart "multipart/alternative" [mkHeader "DATE" "Wed, 25 Dec 2024"] None
    [mkPart "text/html" [] (Some "<p>hello</p>") [];
     mkPart "text/plain" [] (Some "") [];
     mkPart "multipart/mixed" [] None [mkPart "text/plain" [] (Some "hello") []]].

(** The dict [email_data] of a turn (lines 598-604), from the identifier,
    the message fetched and the record parsed. *)
Definition email_data_of (format_date : string -> Res string)
    (message_id : string) (msg : Message) (parsed_data : ExtractionRecord)
    : EmailData.t :=
  {| EmailData.email_link := "https://mail.google.com/mail/u/0/#inbox/" +:+ message_id;
     EmailData.summary := summary parsed_data;
     EmailData.contacts := contacts parsed_data;
     EmailData.assistance_type := assistance_type parsed_data;
     EmailData.sent_day := extract_email_date format_date msg |}.

(** The counters after a turn whose append returned; [marked] tells whether
    the label change returned too. *)
Definition counted_success (marked : bool) (c : Counters) : Counters :=
  (if marked then emails_marked_read_incr else fun c => c)
    (successful_processed_incr (sheet_updates_successful_incr c)).

(** The messages a turn counts in one of its three outcome counters. *)
Definition accounted (c : Counters) : nat :=
  successful_processed c + failed_processed c + sheet_updates_failed c.

(** ** Provisioning the sheet: test_sheet_access and setup_sheet_headers *)

Definition SHEET_NAME : string := "Sheet 1".

(** The requests of the two functions to the spreadsheet collaborator. *)
Inductive SheetCall : Type :=
  | SpreadsheetsGet                                   (* the metadata *)
  | ValuesGet (range : string)
  | ValuesUpdate (range : string) (values : list (list string))
  | ValuesClear (range : string).

(** State and error over the log of requests sent, each with whether it
    returned or raised. *)
Definition SheetM (A : Type) : Type :=
  list (SheetCall * bool) -> Res A * list (SheetCall * bool).

Definition sheet_ret {A : Type} (a : A) : SheetM A := fun log => (Ok a, log).

Definition sheet_bind {A B : Type} (m : SheetM A) (k : A -> SheetM B) : SheetM B :=
  fun log =>
    match m log with
    | (Ok a, log') => k a log'
    | (Raise e, log') => (Raise e, log')
    end.

Definition sheet_try {A : Type} (m : SheetM A) (h : exn -> SheetM A) : SheetM A :=
  fun log =>
    match m log with
    | (Ok a, log') => (Ok a, log')
    | (Raise e, log') => h e log'
    end.

Declare Scope sheet_scope.
Delimit Scope sheet_scope with sheet.
Notation "x <- m ;; k" := (sheet_bind m (fun x => k))
  (at level 100, m at next level, right associativity) : sheet_scope.
Notation "m ;; k" := (sheet_bind m (fun _ => k))
  (at level 100, right associativity) : sheet_scope.

(** [f"{n}"] for a row number *)
Definition str_of_nat (n : nat) : string :=
  DecimalString.NilZero.string_of_uint (Nat.to_uint n).

(** The header row (line 231). *)
Definition headers_row : list string :=
  ["Name"; "Email"; "Phone"; "Summary"; "Assistance Type"; "Sent Date"; "Email Link"].

(** The test row (line 282). *)
Definition test_row_values : list string :=
  ["TEST"; "TEST"; "TEST"; "TEST"; "TEST"; "TEST"; "TEST"].

Section SheetProvisioning.

(** Which requests raise, the titles the metadata lists, and what a range
    reads as (its ['values'], the empty list when the key is absent), all up
    to the collaborator and to what has been sent before. *)
Variable sheet_fault : list (SheetCall * bool) -> SheetCall -> bool.
Variable sheet_titles : list (SheetCall * bool) -> list string.
Variable range_values : list (SheetCall * bool) -> string -> list (list string).

Definition sheet_request {A : Type} (c : SheetCall)
    (answer : list (SheetCall * bool) -> A) : SheetM A :=
  fun log =>
    if sheet_fault log c then (Raise ServiceError, log ++ [(c, false)])
    else (Ok (answer log), log ++ [(c, true)]).

(** lines 219-253 *)
Definition setup_sheet_headers : SheetM unit :=
  sheet_try
    (existing_values <-
       sheet_request (ValuesGet (SHEET_NAME +:+ "!A1:G1"))
                     (fun log => range_values log (SHEET_NAME +:+ "!A1:G1")) ;;
     let headers := headers_row in
     if match existing_values with
        | [] => true
        | first :: _ => length first <? 7
        end
     then
       sheet_request (ValuesUpdate (SHEET_NAME +:+ "!A1:G1") [headers]) (fun _ => tt)
     else sheet_ret tt)%sheet
    (fun _ => sheet_ret tt).

(** lines 255-320 *)
Definition test_sheet_access : SheetM bool :=
  sheet_try
    (sheet_names <- sheet_request SpreadsheetsGet sheet_titles ;;
     if negb (Py.mem SHEET_NAME sheet_names) then sheet_ret false
     else
       sheet_request (ValuesGet (SHEET_NAME +:+ "!A1:G1"))
                     (fun log => range_values log (SHEET_NAME +:+ "!A1:G1")) ;;
       let test_data := [test_row_values] in
       existing_rows <-
         sheet_request (ValuesGet (SHEET_NAME +:+ "!A:A"))
                       (fun log => range_values log (SHEET_NAME +:+ "!A:A")) ;;
       let test_row := length existing_rows + 1 in
       let range := SHEET_NAME +:+ "!A" +:+ str_of_nat test_row
                               +:+ ":G" +:+ str_of_nat test_row in
       sheet_request (ValuesUpdate range test_data) (fun _ => tt) ;;
       sheet_request (ValuesClear range) (fun _ => tt) ;;
       sheet_ret true)%sheet
    (fun _ => sheet_ret false).

End SheetProvisioning.

(** The range of one row, columns A to G. *)
Definition row_range (n : nat) : string :=
  SHEET_NAME +:+ "!A" +:+ str_of_nat n +:+ ":G" +:+ str_of_nat n.

(** The request writes to the sheet. *)
Definition is_write (c : SheetCall) : bool :=
  match c with
  | ValuesUpdate _ _ | ValuesClear _ => true
  | _ => false
  end.

(** A collaborator whose sheet has three rows, the first with the seven
    headers; [refuse] picks the requests that raise. *)
Definition sample_titles (log : list (SheetCall * bool)) : list string :=
  ["Archive"; "Sheet 1"].

Definition sample_range (log : list (SheetCall * bool)) (range : string)
    : list (list string) :=
  if String.eqb range "Sheet 1!A:A" then [["Name"]; ["Jane"]; ["Bob"]]
  else [headers_row].

Definition clear_fault (log : list (SheetCall * bool)) (c : SheetCall) : bool :=
  match c with ValuesClear _ => true | _ => false end.

Definition no_sheet_fault (log : list (SheetCall * bool)) (c : SheetCall) : bool := false.

(** ** get_google_credentials *)

Definition SCOPES : list string :=
  ["https://www.googleapis.com/auth/gmail.readonly";
   "https://www.googleapis.com/auth/gmail.modify";
   "https://www.googleapis.com/auth/spreadsheets";
   "https://www.googleapis.com/auth/drive.file"].

(** What the function reads of a credentials object: [creds.scopes] (the
    empty list when the attribute is absent or empty), [creds.valid],
    [creds.expired], the truth value of [creds.refresh_token], and
    [creds.to_json()]. *)
Record Credentials : Type := mkCredentials {
  scopes : list string;
  valid : bool;
  expired : bool;
  refresh_token : bool;
  to_json : string
}.

(** The two files: the content of token.json when it exists, and whether
    credentials.json exists. Removing and writing token.json succeed. *)
Record Files : Type := mkFiles {
  token_file : option string;
  credentials_file : bool
}.

(** How the function ends: with credentials, or raising because
    credentials.json is missing (line 69), or because the interactive flow
    raised. *)
Inductive Auth : Type :=
  | Granted (creds : Credentials)
  | CredentialsFileMissing
  | FlowFailed (e : exn).

Definition remove_token (fs : Files) : Files :=
  {| token_file := None; credentials_file := credentials_file fs |}.

Definition write_token (creds : Credentials) (fs : Files) : Files :=
  {| token_file := Some (to_json creds); credentials_file := credentials_file fs |}.

(** [set(SCOPES) - set(creds.scopes)] is not empty *)
Definition missing_scopes (creds : Credentials) : bool :=
  existsb (fun s => negb (Py.mem s (scopes creds))) SCOPES.

Section Authentication.

(** [Credentials.from_authorized_user_file(TOKEN_FILE, SCOPES)], on the
    content of token.json; the library gives the credentials it returns the
    scopes it is asked for. *)
Variable from_authorized_user_file : string -> Res Credentials.
(** [creds.refresh(Request())]: the object as refreshed, or a raise *)
Variable refresh : Credentials -> Res Credentials.
(** [InstalledAppFlow.from_client_secrets_file(...).run_local_server(port=0)] *)
Variable run_flow : Res Credentials.

(** lines 35-55: the stored token, when it can be used *)
Definition load_token (fs : Files) : option Credentials * Files :=
  match token_file fs with
  | Some content =>
      match from_authorized_user_file content with
      | Ok creds =>
          if match scopes creds with [] => false | _ => true end
             && missing_scopes creds
          then (None, remove_token fs)
          else (Some creds, fs)
      | Raise _ => (None, remove_token fs)
      end
  | None => (None, fs)
  end.

(** lines 58-77: the branch taken without usable valid credentials *)
Definition renew_credentials (creds : option Credentials) (fs : Files) : Auth * Files :=
  let creds :=
    match creds with
    | Some c =>
        if expired c && refresh_token c then
          match refresh c with
          | Ok c' => Some c'
          | Raise _ => None
          end
        else Some c
    | None => None
    end in
  match creds with
  | None =>
      if negb (credentials_file fs) then (CredentialsFileMissing, fs)
      else
        match run_flow with
        | Ok c => (Granted c, write_token c fs)
        | Raise e => (FlowFailed e, fs)
        end
  | Some c => (Granted c, write_token c fs)
  end.

(** lines 33-79; [if not creds or not creds.valid] is the case split *)
Definition get_google_credentials (fs : Files) : Auth * Files :=
  let '(creds, fs) := load_token fs in
  match creds with
  | Some c => if valid c then (Granted c, fs) else renew_credentials creds fs
  | None => renew_credentials creds fs
  end.

End Authentication.

(** Sample credentials: valid ones with the four scopes, and stale ones. *)
Definition full_token : Credentials := mkCredentials SCOPES true false true "new".

Definition stale_token : Credentials := mkCredentials SCOPES false false true "stale".

(** ** parse_ollama_response with its prints

    [print(text)] encodes [text] for standard output and raises
    UnicodeEncodeError when the encoding lacks one of its characters. The
    parser prints the raw output three times: at line 154, inside the [try];
    through the summary and the assistance type at lines 192-193, inside the
    [try]; and at line 200, inside the handler of [json.JSONDecodeError],
    where nothing catches a raise. *)

(** What can be raised: an exception of the computation of lines 157-190,
    or the UnicodeEncodeError of a print. *)
Inductive Raised : Type :=
  | Body (e : exn)
  | UnicodeEncodeError.

Inductive Out (A : Type) : Type :=
  | Returned (a : A)
  | Raising (e : Raised).
Arguments Returned {A} a.
Arguments Raising {A} e.

(** [m] then [k] *)
Definition and_then {A : Type} (m : Out unit) (k : Out A) : Out A :=
  match m with
  | Returned _ => k
  | Raising e => Raising e
  end.

Section Printing.

(** The characters the encoding of standard output has. *)
Variable encodable : ascii -> bool.
(** [str(e)], the text of an exception. *)
Variable exn_text : Raised -> string.
Variable json_loads : string -> Res value.
Variable py_repr : value -> string.

Definition print (text : string) : Out unit :=
  if all_chars encodable text then Returned tt else Raising UnicodeEncodeError.

(** lines 154-196: the body of the [try], prints included; the computation
    between the prints is [parse_try]. *)
Definition parse_try_printing (ollama_output : string) : Out (option ExtractionRecord) :=
  and_then (print ("  Debug - Raw Ollama output: " +:+ Py.take 200 ollama_output +:+ "..."))
    match parse_try json_loads py_repr ollama_output with
    | Ok (Some result) =>
        and_then (print ("  Debug - Parsed summary: '" +:+ summary result +:+ "'"))
       (and_then (print ("  Debug - Parsed assistance_type: '"
                           +:+ assistance_type result +:+ "'"))
       (and_then (print ("  Debug - Parsed contacts: "
                           +:+ str_of_nat (length (contacts result)) +:+ " found"))
          (Returned (Some result))))
    | Ok None => Returned None
    | Raise e => Raising (Body e)
    end.

(** lines 152-209. A raise inside a handler leaves the function. *)
Definition parse_ollama_response_printing (ollama_output : string) : Out ExtractionRecord :=
  match parse_try_printing ollama_output with
  | Returned (Some result) => Returned result
  | Returned None => Returned (fallback_response ollama_output)
  | Raising (Body JSONDecodeError) =>
      and_then (print ("  Error - JSON parsing failed: " +:+ exn_text (Body JSONDecodeError)))
     (and_then (print ("  Error - Ollama output was: " +:+ ollama_output))
        (Returned (fallback_response ollama_output)))
  | Raising e =>
      and_then (print ("  Error - General parsing error: " +:+ exn_text e))
        (Returned (fallback_response ollama_output))
  end.

End Printing.

(** [c * n] *)
Fixpoint repeat_char (c : ascii) (n : nat) : string :=
  match n with
  | O => EmptyString
  | S k => String c (repeat_char c k)
  end.

(** A standard output in ASCII, and short exception texts. *)
Definition ascii_stdout (c : ascii) : bool := Py.ord c <? 128.

Definition sample_exn_text (e : Raised) : string :=
  match e with
  | Body JSONDecodeError => "Expecting property name: line 1 column 2 (char 1)"
  | Body _ => "object has no attribute"
  | UnicodeEncodeError => "codec can't encode character"
  end.

(** A brace span that is not JSON, with an e-acute (U+00E9) after its first
    200 characters. *)
Definition unprintable_output : string :=
  "{" +:+ repeat_char "a" 250 +:+ String (ascii_of_nat 233) "}".

(** * Properties *)

(** ** Strings *)

Lemma app_cons (c : ascii) (a b : string) : String c a +:+ b = String c (a +:+ b).
Proof. reflexivity. Qed.

Lemma app_empty (b : string) : EmptyString +:+ b = b.
Proof. reflexivity. Qed.

Lemma length_app_string (a b : string) :
  String.length (a +:+ b) = String.length a + String.length b.
Proof.
  induction a as [|c a IH]; [reflexivity|].
  rewrite app_cons. simpl. now rewrite IH.
Qed.

Lemma take_drop_string (n : nat) (s : string) : Py.take n s +:+ Py.drop n s = s.
Proof.
  revert s; induction n as [|n IH]; intros [|c s]; simpl; try reflexivity.
  now rewrite app_cons, IH.
Qed.

Lemma length_take_string (n : nat) (s : string) :
  String.length (Py.take n s) = Nat.min n (String.length s).
Proof.
  revert s; induction n as [|n IH]; intros [|c s]; simpl; try reflexivity.
  now rewrite IH.
Qed.

Lemma length_drop_string (n : nat) (s : string) :
  String.length (Py.drop n s) = String.length s - n.
Proof.
  revert s; induction n as [|n IH]; intros [|c s]; simpl; try reflexivity.
  apply IH.
Qed.

Lemma drop_drop_string (n m : nat) (s : string) :
  Py.drop n (Py.drop m s) = Py.drop (m + n) s.
Proof.
  revert s; induction m as [|m IH]; intros s; simpl; [reflexivity|].
  destruct s as [|c s]; [now destruct n | apply IH].
Qed.

(** A string of [a + b + c] characters splits at its slices. *)
Lemma three_slices (a b : nat) (s : string) :
  s = Py.take a s +:+ Py.slice a (a + b) s +:+ Py.drop (a + b) s.
Proof.
  unfold Py.slice. replace (a + b - a) with b by lia.
  rewrite <- (drop_drop_string b a s).
  now rewrite !take_drop_string.
Qed.

Lemma filter_all (p : ascii -> bool) (s : string) (c : ascii) (r : string) :
  Py.filter p s = String c r -> p c = true.
Proof.
  induction s as [|x s IH]; simpl; [discriminate|].
  destruct (p x) eqn:E; [|exact IH].
  intros [= <- _]. exact E.
Qed.

Lemma startswith_spec (w s : string) :
  Py.startswith w s = true <-> exists rest, s = w +:+ rest.
Proof.
  revert s; induction w as [|a w IH]; intros s; simpl.
  - split; [intros _; now exists s | reflexivity].
  - destruct s as [|b s].
    + split; [discriminate | intros [rest H]; discriminate].
    + rewrite andb_true_iff, Ascii.eqb_eq, IH. split.
      * intros [-> [rest ->]]. now exists rest.
      * intros [rest H]. rewrite app_cons in H. injection H as -> ->.
        split; [reflexivity | now exists rest].
Qed.

(** [Py.contains] is the substring test. *)
Lemma contains_spec (w s : string) :
  Py.contains w s = true <-> exists before after, s = before +:+ w +:+ after.
Proof.
  induction s as [|c s IH].
  - simpl. rewrite orb_false_r, startswith_spec. split.
    + intros [rest H]. now exists EmptyString, rest.
    + intros [[|x b] [a H]]; [now exists a | discriminate].
  - simpl. rewrite orb_true_iff, startswith_spec, IH. split.
    + intros [[rest H] | [b [a H]]].
      * now exists EmptyString, rest.
      * exists (String c b), a. now rewrite app_cons, H.
    + intros [[|x b] [a H]].
      * left. now exists a.
      * right. rewrite app_cons in H. injection H as _ H. now exists b, a.
Qed.

Lemma mem_spec (s : string) (xs : list string) : Py.mem s xs = true <-> In s xs.
Proof.
  unfold Py.mem. rewrite existsb_exists. split.
  - intros [x [Hx E]]. apply String.eqb_eq in E. now subst.
  - intros H. exists s. split; [exact H | apply String.eqb_refl].
Qed.


Lemma lstrip_idem (s : string) : Py.lstrip (Py.lstrip s) = Py.lstrip s.
Proof.
  induction s as [|c s IH]; [reflexivity|]. simpl.
  destruct (Py.isspace c) eqn:E; [exact IH|]. simpl. now rewrite E.
Qed.

Lemma rstrip_cons (c : ascii) (s : string) :
  Py.rstrip (String c s) =
    match Py.rstrip s with
    | EmptyString => if Py.isspace c then EmptyString else String c EmptyString
    | r' => String c r'
    end.
Proof. reflexivity. Qed.

Lemma rstrip_idem (s : string) : Py.rstrip (Py.rstrip s) = Py.rstrip s.
Proof.
  induction s as [|c s IH]; [reflexivity|]. rewrite rstrip_cons.
  destruct (Py.rstrip s) as [|d r] eqn:R.
  - destruct (Py.isspace c) eqn:E; [reflexivity|]. simpl. now rewrite E.
  - rewrite rstrip_cons. now rewrite IH.
Qed.

Lemma rstrip_lstrip (s : string) : Py.rstrip (Py.lstrip s) = Py.lstrip (Py.rstrip s).
Proof.
  induction s as [|c s IH]; [reflexivity|].
  change (Py.lstrip (String c s)) with (if Py.isspace c then Py.lstrip s else String c s).
  destruct (Py.isspace c) eqn:E.
  - rewrite IH, rstrip_cons. destruct (Py.rstrip s) as [|d r]; [now rewrite E|].
    simpl. now rewrite E.
  - rewrite !rstrip_cons.
    destruct (Py.rstrip s) as [|d r]; rewrite ?E; simpl; now rewrite E.
Qed.

(** Trimming a trimmed string changes nothing. *)
Lemma strip_idem (s : string) : Py.strip (Py.strip s) = Py.strip s.
Proof.
  unfold Py.strip. rewrite rstrip_lstrip, rstrip_idem.
  now rewrite lstrip_idem.
Qed.

(** ** The formula guard *)

Lemma formula_trigger_spec (c : ascii) :
  formula_trigger c = true <-> In c ["="; "+"; "-"; "@"]%char.
Proof.
  unfold formula_trigger. rewrite !orb_true_iff, !Ascii.eqb_eq. simpl.
  intuition congruence.
Qed.

Lemma guard_formula_neutralized (x : string) : neutralized x (guard_formula x).
Proof.
  unfold neutralized, begins_with_trigger, guard_formula.
  destruct x as [|c r].
  - split; [intros (c & r & H & _); discriminate | reflexivity].
  - destruct (formula_trigger c) eqn:E.
    + split; [reflexivity|]. intros H. exfalso. apply H.
      exists c, r. split; [reflexivity | now apply formula_trigger_spec].
    + split; [|reflexivity]. intros (c' & r' & [= <- <-] & H).
      apply formula_trigger_spec in H. congruence.
Qed.

Lemma digit_not_trigger (c : ascii) : Py.isdigit c = true -> formula_trigger c = false.
Proof.
  destruct c as [[] [] [] [] [] [] [] []]; vm_compute; congruence.
Qed.

(** ** The phone formatter *)

Lemma format_phone_number_unfold (phone : string) :
  format_phone_number phone =
    let digits := digits_of phone in
    if String.length digits =? 10 then
      "(" +:+ Py.take 3 digits +:+ ") " +:+ Py.slice 3 6 digits +:+ "-" +:+ Py.drop 6 digits
    else if (String.length digits =? 11) && Py.startswith "1" digits then
      "(" +:+ Py.take 3 (Py.drop 1 digits) +:+ ") " +:+ Py.slice 3 6 (Py.drop 1 digits)
          +:+ "-" +:+ Py.drop 6 (Py.drop 1 digits)
    else if String.length digits =? 7 then
      Py.take 3 digits +:+ "-" +:+ Py.drop 3 digits
    else guard_formula (Py.strip phone).
Proof. destruct phone; reflexivity. Qed.

Lemma ten_digits_layout (d : string) :
  String.length d = 10 ->
  exists a b c, d = a +:+ b +:+ c /\
    String.length a = 3 /\ String.length b = 3 /\ String.length c = 4 /\
    a = Py.take 3 d /\ b = Py.slice 3 6 d /\ c = Py.drop 6 d.
Proof.
  intros H. exists (Py.take 3 d), (Py.slice 3 6 d), (Py.drop 6 d).
  split; [exact (three_slices 3 3 d)|].
  unfold Py.slice. rewrite !length_take_string, !length_drop_string, H.
  repeat split; reflexivity.
Qed.

(** C5: the contract of the phone formatter. With [digits] the digit
    characters of the input, in order: ten digits are laid out as
    (AAA) BBB-CCCC; eleven digits led by 1 lose the 1 and are laid out the
    same way; seven digits are laid out as AAA-BBBB; in every other case the
    result is the trimmed input, escaped when it begins with a formula
    trigger and untouched otherwise; the empty input gives the empty string. *)
Theorem format_phone_number_contract (phone : string) :
  let digits := Py.filter Py.isdigit phone in
  (String.length digits = 10 ->
     exists a b c, digits = a +:+ b +:+ c /\
       String.length a = 3 /\ String.length b = 3 /\ String.length c = 4 /\
       format_phone_number phone = "(" +:+ a +:+ ") " +:+ b +:+ "-" +:+ c) /\
  (forall rest, String.length digits = 11 -> digits = String "1" rest ->
     exists a b c, rest = a +:+ b +:+ c /\
       String.length a = 3 /\ String.length b = 3 /\ String.length c = 4 /\
       format_phone_number phone = "(" +:+ a +:+ ") " +:+ b +:+ "-" +:+ c) /\
  (String.length digits = 7 ->
     exists a b, digits = a +:+ b /\
       String.length a = 3 /\ String.length b = 4 /\
       format_phone_number phone = a +:+ "-" +:+ b) /\
  (String.length digits <> 10 -> String.length digits <> 7 ->
   ~ (String.length digits = 11 /\ exists rest, digits = String "1" rest) ->
     neutralized (Py.strip phone) (format_phone_number phone)) /\
  (phone = "" -> format_phone_number phone = "").
Proof.
  intros digits. rewrite format_phone_number_unfold.
  fold digits. change (digits_of phone) with digits. cbv zeta.
  split; [|split; [|split; [|split]]].
  - intros H. destruct (ten_digits_layout digits H) as (a & b & c & E & La & Lb & Lc & -> & -> & ->).
    rewrite H. simpl Nat.eqb. cbv iota.
    eexists _, _, _. repeat split; eauto.
  - intros rest H E.
    assert (Hr : String.length rest = 10) by (rewrite E in H; simpl in H; lia).
    destruct (ten_digits_layout rest Hr) as (a & b & c & E' & La & Lb & Lc & -> & -> & ->).
    rewrite H, E. simpl Nat.eqb. cbv iota.
    change (Py.startswith "1" (String "1" rest)) with true.
    change (Py.drop 1 (String "1" rest)) with rest. simpl andb. cbv iota.
    eexists _, _, _. repeat split; eauto.
  - intros H. rewrite H. simpl Nat.eqb. simpl andb. cbv iota.
    exists (Py.take 3 digits), (Py.drop 3 digits).
    rewrite take_drop_string, length_take_string, length_drop_string, H.
    repeat split; reflexivity.
  - intros H10 H7 H11.
    apply Nat.eqb_neq in H10, H7. rewrite H10, H7.
    destruct ((String.length digits =? 11) && Py.startswith "1" digits) eqn:E.
    + exfalso. apply H11. apply andb_true_iff in E as [E1 E2].
      apply Nat.eqb_eq in E1. apply startswith_spec in E2 as [rest E2].
      split; [exact E1 | now exists rest].
    + apply guard_formula_neutralized.
  - intros ->. reflexivity.
Qed.

Lemma format_phone_number_contract_witness :
  (exists a b c, "5551234567" = a +:+ b +:+ c /\
     String.length a = 3 /\ String.length b = 3 /\ String.length c = 4 /\
     format_phone_number "555.123.4567" = "(" +:+ a +:+ ") " +:+ b +:+ "-" +:+ c) /\
  (exists a b c, "5551234567" = a +:+ b +:+ c /\
     String.length a = 3 /\ String.length b = 3 /\ String.length c = 4 /\
     format_phone_number "+1 555 123 4567" = "(" +:+ a +:+ ") " +:+ b +:+ "-" +:+ c) /\
  (exists a b, "1234567" = a +:+ b /\
     String.length a = 3 /\ String.length b = 4 /\
     format_phone_number "123 4567" = a +:+ "-" +:+ b) /\
  neutralized "+44 20 7946" (format_phone_number " +44 20 7946 ") /\
  format_phone_number "" = "".
Proof.
  split; [|split; [|split; [|split]]].
  - apply (proj1 (format_phone_number_contract "555.123.4567")). reflexivity.
  - apply (proj1 (proj2 (format_phone_number_contract "+1 555 123 4567")) "5551234567");
      reflexivity.
  - apply (proj1 (proj2 (proj2 (format_phone_number_contract "123 4567")))). reflexivity.
  - apply (proj1 (proj2 (proj2 (proj2 (format_phone_number_contract " +44 20 7946 "))))).
    + vm_compute. lia.
    + vm_compute. lia.
    + vm_compute. intros [H _]. lia.
  - apply (proj2 (proj2 (proj2 (proj2 (format_phone_number_contract ""))))). reflexivity.
Defined.

(** C6, as stated: the five examples of the specification. The fourth one
    fails: the input [abc] has no digit, so no layout applies and the
    trimmed input itself comes back. *)
Lemma format_phone_number_examples_counterexample :
  ~ (format_phone_number "1234567890" = "(123) 456-7890" /\
     format_phone_number "11234567890" = "(123) 456-7890" /\
     format_phone_number "1234567" = "123-4567" /\
     format_phone_number "abc" = "" /\
     format_phone_number "555123" = "555123").
Proof. intros (_ & _ & _ & H & _). vm_compute in H. discriminate H. Qed.

(** C6, amended: the same examples with [abc] mapped to itself. *)
Theorem format_phone_number_examples :
  format_phone_number "1234567890" = "(123) 456-7890" /\
  format_phone_number "11234567890" = "(123) 456-7890" /\
  format_phone_number "1234567" = "123-4567" /\
  format_phone_number "abc" = "abc" /\
  format_phone_number "555123" = "555123".
Proof. repeat split; reflexivity. Qed.

(** ** The row builder *)

Lemma guard_formula_id (c : ascii) (r : string) :
  formula_trigger c = false -> guard_formula (String c r) = String c r.
Proof. intros H. simpl. now rewrite H. Qed.

Lemma seven_digits_head (d : string) :
  String.length d = 7 -> (forall c r, d = String c r -> Py.isdigit c = true) ->
  exists c r, Py.take 3 d +:+ "-" +:+ Py.drop 3 d = String c r /\ Py.isdigit c = true.
Proof.
  intros H Hd. destruct d as [|c r]; [discriminate|].
  exists c. eexists. split; [reflexivity | now apply (Hd c r)].
Qed.

(** The formatter is the guard applied to the layout: the layouts begin
    with a parenthesis or a digit, which the guard leaves alone. *)
Lemma format_phone_number_guard (phone : string) :
  format_phone_number phone = guard_formula (phone_layout phone).
Proof.
  rewrite format_phone_number_unfold. unfold phone_layout, digits_of. cbv zeta.
  set (digits := Py.filter Py.isdigit phone).
  destruct (String.length digits =? 10); [reflexivity|].
  destruct ((String.length digits =? 11) && Py.startswith "1" digits); [reflexivity|].
  destruct (String.length digits =? 7) eqn:E; [|reflexivity].
  apply Nat.eqb_eq in E.
  destruct (seven_digits_head digits E) as (c & r & -> & Hc).
  - intros c r H. exact (filter_all _ _ _ _ H).
  - symmetry. apply guard_formula_id. now apply digit_not_trigger.
Qed.

Lemma safe_field_strip (x : string) : safe_field x = Py.strip x.
Proof. destruct x; reflexivity. Qed.

Lemma neutralized_empty : neutralized "" "".
Proof. exact (guard_formula_neutralized ""). Qed.


Lemma contact_row_fields (s t d k : string) (c : Contact) :
  contact_row s t d k c =
    [guard_formula (Py.strip (name c)); guard_formula (Py.strip (email c));
     format_phone_number (Py.strip (phone c)); s; t; d; k].
Proof. unfold contact_row. now rewrite !safe_field_strip. Qed.



(** C7: in every row the builder emits, the Name, Email, Phone and Summary
    cells are the trimmed name, the trimmed email, the laid-out phone and the
    summary made literal: preceded by an apostrophe when the value begins
    with [=], [+], [-] or [@], and stored as it is otherwise. *)
Theorem build_rows_neutralized (email_data : EmailData.t) (row : list string) :
  In row (build_rows email_data) ->
  exists n e p,
    ((EmailData.contacts email_data = [] /\ n = "" /\ e = "" /\ p = "") \/
     (exists c, In c (EmailData.contacts email_data) /\
        n = Py.strip (name c) /\ e = Py.strip (email c) /\
        p = phone_layout (Py.strip (phone c)))) /\
    exists vn ve vp vs,
      row = [vn; ve; vp; vs; EmailData.assistance_type email_data;
             EmailData.sent_day email_data; EmailData.email_link email_data] /\
      neutralized n vn /\ neutralized e ve /\ neutralized p vp /\
      neutralized (EmailData.summary email_data) vs.
Proof.
  destruct email_data as [link s cs t day]. unfold build_rows. simpl.
  destruct cs as [|c0 cs'].
  - intros [<- | []]. exists "", "", "". split; [left; auto|].
    eexists _, _, _, _. split; [reflexivity|].
    repeat split; try apply neutralized_empty; apply guard_formula_neutralized.
  - intros H.
    change (In row (map (contact_row (guard_formula s) t day link) (c0 :: cs'))) in H.
    apply in_map_iff in H as (c & <- & Hc).
    exists (Py.strip (name c)), (Py.strip (email c)), (phone_layout (Py.strip (phone c))).
    split; [right; exists c; auto|].
    rewrite contact_row_fields, format_phone_number_guard.
    eexists _, _, _, _. split; [reflexivity|].
    repeat split; apply guard_formula_neutralized.
Qed.

Lemma build_rows_neutralized_witness :
  exists n e p,
    (([mkContact " =SUM(A1)" "+x@example.com" " -12 "] = [] /\ n = "" /\ e = "" /\ p = "") \/
     (exists c, In c [mkContact " =SUM(A1)" "+x@example.com" " -12 "] /\
        n = Py.strip (name c) /\ e = Py.strip (email c) /\
        p = phone_layout (Py.strip (phone c)))) /\
    exists vn ve vp vs,
      ["'=SUM(A1)"; "'+x@example.com"; "'-12"; "'@now"; "unknown"; "day"; "link"] =
      [vn; ve; vp; vs; "unknown"; "day"; "link"] /\
      neutralized n vn /\ neutralized e ve /\ neutralized p vp /\
      neutralized "@now" vs.
Proof.
  apply (build_rows_neutralized
           (EmailData.mk "link" "@now" [mkContact " =SUM(A1)" "+x@example.com" " -12 "]
                         "unknown" "day")).
  simpl. left. reflexivity.
Defined.

(** ** The response parser *)

Lemma app_assoc_string (a b c : string) : (a +:+ b) +:+ c = a +:+ b +:+ c.
Proof.
  induction a as [|x a IH]; [reflexivity|].
  now rewrite !app_cons, IH.
Qed.

Lemma after_first_open_some (s r : string) :
  Re.after_first_open s = Some r -> exists a, s = a +:+ "{" +:+ r.
Proof.
  revert r; induction s as [|c s IH]; intros r; simpl; [discriminate|].
  destruct (Ascii.eqb c "{") eqn:E.
  - apply Ascii.eqb_eq in E as ->. intros [= ->]. now exists EmptyString.
  - intros H. destruct (IH r H) as [a ->]. now exists (String c a).
Qed.

Lemma upto_last_close_some (s p : string) :
  Re.upto_last_close s = Some p -> exists b c, p = b +:+ "}" /\ s = p +:+ c.
Proof.
  revert p; induction s as [|x s IH]; intros p; simpl; [discriminate|].
  destruct (Re.upto_last_close s) as [p'|].
  - intros [= <-]. destruct (IH p' eq_refl) as (b & c & -> & ->).
    exists (String x b), c. now rewrite !app_cons.
  - destruct (Ascii.eqb x "}") eqn:E; [|discriminate].
    apply Ascii.eqb_eq in E as ->. intros [= <-].
    now exists EmptyString, s.
Qed.

Lemma upto_last_close_finds (x c : string) :
  Re.upto_last_close (x +:+ "}" +:+ c) <> None.
Proof.
  induction x as [|y x IH].
  - rewrite app_empty, app_cons. simpl.
    destruct (Re.upto_last_close (EmptyString +:+ c)); discriminate.
  - rewrite app_cons. simpl.
    destruct (Re.upto_last_close (x +:+ "}" +:+ c)); [discriminate | contradiction].
Qed.

Lemma after_first_open_finds (a rest : string) :
  exists x, Re.after_first_open (a +:+ "{" +:+ rest) = Some (x +:+ rest).
Proof.
  induction a as [|y a [x IH]].
  - exists EmptyString. reflexivity.
  - rewrite app_cons. simpl. destruct (Ascii.eqb y "{").
    + exists (a +:+ "{"). now rewrite app_assoc_string.
    + now exists x.
Qed.

(** The search finds a match exactly when the text has an opening brace
    with a closing brace somewhere after it. *)
Lemma search_braces_none (s : string) :
  Re.search_braces s = None <->
  (forall a b c, s <> a +:+ "{" +:+ b +:+ "}" +:+ c).
Proof.
  unfold Re.search_braces. split.
  - intros H a b c ->.
    destruct (after_first_open_finds a (b +:+ "}" +:+ c)) as [x E].
    rewrite E in H. rewrite <- app_assoc_string in H.
    destruct (Re.upto_last_close ((x +:+ b) +:+ "}" +:+ c)) eqn:U; [discriminate|].
    now apply upto_last_close_finds in U.
  - intros H. destruct (Re.after_first_open s) as [r|] eqn:E; [|reflexivity].
    destruct (Re.upto_last_close r) as [p|] eqn:U; [|reflexivity].
    exfalso. apply after_first_open_some in E as [a ->].
    apply upto_last_close_some in U as (b & c & -> & ->).
    apply (H a b c). now rewrite !app_assoc_string.
Qed.

Section ParserFacts.

Variable json_loads : string -> Res value.
Variable py_repr : value -> string.




Lemma parse_ollama_response_cases (out : string) :
  (parse_ollama_response json_loads py_repr out = Ok (fallback_response out)) \/
  (exists r, parse_try json_loads py_repr out = Ok (Some r) /\
             parse_ollama_response json_loads py_repr out = Ok r).
Proof.
  unfold parse_ollama_response.
  destruct (parse_try json_loads py_repr out) as [[r|]|[]]; auto.
  right. now exists r.
Qed.



Lemma clean_field_trimmed (d : list (string * value)) (k : string) :
  Py.strip (clean_field py_repr d k) = clean_field py_repr d k.
Proof.
  unfold clean_field. destruct (PyValue.lookup k d) as [v|]; [|reflexivity].
  destruct (PyValue.truthy v); [apply strip_idem | reflexivity].
Qed.

(** The contacts the parser keeps have trimmed fields, so the trim of the
    row builder leaves them as they are. *)
Lemma parsed_contacts_trimmed (out : string) (r : ExtractionRecord) (c : Contact) :
  parse_ollama_response json_loads py_repr out = Ok r ->
  In c (contacts r) ->
  Py.strip (name c) = name c /\ Py.strip (email c) = email c /\
  Py.strip (phone c) = phone c.
Proof.
  intros H Hc.
  destruct (parse_ollama_response_cases out) as [E | (r' & Ht & E)];
    rewrite E in H; injection H as <-; [destruct Hc|].
  unfold parse_try in Ht. destruct (Re.search_braces out); [|discriminate].
  destruct (json_loads s) as [parsed|]; [|discriminate]. simpl in Ht.
  destruct (PyValue.get parsed "summary" _) as [v|]; [|discriminate]. simpl in Ht.
  destruct (str_strip v); [|discriminate]. simpl in Ht.
  destruct (PyValue.get parsed "assistance_type" _) as [v'|]; [|discriminate]. simpl in Ht.
  destruct (str_strip v'); [|discriminate]. simpl in Ht.
  destruct (PyValue.get parsed "contacts" _) as [raw|]; [|discriminate]. simpl in Ht.
  injection Ht as <-. cbn [contacts] in Hc.
  unfold clean_contacts in Hc. destruct raw as [| | | | |l|]; try destruct Hc.
  apply in_concat in Hc as (cs & Hcs & Hc). apply in_map_iff in Hcs as (x & <- & _).
  unfold clean_contact in Hc. destruct x as [| | | | | |d]; try destruct Hc.
  match type of Hc with
  | In _ (if ?b then _ else _) => destruct b; [|destruct Hc]
  end.
  destruct Hc as [<- | []]. cbn [name email phone].
  repeat split; apply clean_field_trimmed.
Qed.

End ParserFacts.


(** The record the parser computes, its prints set aside
    ([parse_ollama_response_printing] has them): there is one for every
    text. When the text has no brace-delimited span, when [json.loads]
    raises on the span, or when any other step of the body raises, that
    record is the fallback: its summary is "Parsing failed - Raw output: "
    followed by the first 100 characters of the text (all of it when
    shorter), its contacts are empty and its assistance type is unknown. *)
Lemma parse_ollama_response_fallback
    (json_loads : string -> Res value) (py_repr : value -> string) (out : string) :
  exists r,
    parse_ollama_response json_loads py_repr out = Ok r /\
    ((forall a b c, out <> a +:+ "{" +:+ b +:+ "}" +:+ c) ->
       r = fallback_response out) /\
    (forall js e, Re.search_braces out = Some js -> json_loads js = Raise e ->
       r = fallback_response out) /\
    (forall e, parse_try json_loads py_repr out = Raise e ->
       r = fallback_response out) /\
    exists prefix rest,
      out = prefix +:+ rest /\
      String.length prefix = Nat.min 100 (String.length out) /\
      summary (fallback_response out) = "Parsing failed - Raw output: " +:+ prefix /\
      contacts (fallback_response out) = [] /\
      assistance_type (fallback_response out) = "unknown".
Proof.
  assert (F : forall e, parse_try json_loads py_repr out = Raise e ->
                        parse_ollama_response json_loads py_repr out
                        = Ok (fallback_response out)).
  { intros e H. unfold parse_ollama_response. rewrite H. now destruct e. }
  assert (T : exists r, parse_ollama_response json_loads py_repr out = Ok r).
  { destruct (parse_ollama_response_cases json_loads py_repr out) as [H | (r & _ & H)];
      eauto. }
  destruct T as [r Hr]. exists r. split; [exact Hr|].
  split; [|split; [|split]].
  - intros H. apply search_braces_none in H.
    unfold parse_ollama_response, parse_try in Hr. rewrite H in Hr. congruence.
  - intros js e Hs Hj.
    assert (P : parse_try json_loads py_repr out = Raise e).
    { unfold parse_try. now rewrite Hs, Hj. }
    rewrite (F e P) in Hr. congruence.
  - intros e P. rewrite (F e P) in Hr. congruence.
  - exists (Py.take 100 out), (Py.drop 100 out).
    rewrite take_drop_string, length_take_string. repeat split; reflexivity.
Qed.

Lemma parse_ollama_response_fallback_example :
  parse_ollama_response sample_loads sample_repr "I could not read this email."
    = Ok (fallback_response "I could not read this email.") /\
  parse_ollama_response sample_loads sample_repr "Here: {summary: none}"
    = Ok (fallback_response "Here: {summary: none}") /\
  parse_ollama_response sample_loads sample_repr ("{" +:+ dq +:+ "summary" +:+ dq +:+ ": 7}")
    = Ok (fallback_response ("{" +:+ dq +:+ "summary" +:+ dq +:+ ": 7}")).
Proof.
  split; [|split].
  - destruct (parse_ollama_response_fallback sample_loads sample_repr
                "I could not read this email.") as (r & Hr & H & _).
    rewrite Hr. f_equal. apply H. intros a b c E.
    apply search_braces_none in E; [exact E | reflexivity].
  - destruct (parse_ollama_response_fallback sample_loads sample_repr
                "Here: {summary: none}") as (r & Hr & _ & H & _).
    rewrite Hr. f_equal. apply (H "{summary: none}" JSONDecodeError); reflexivity.
  - destruct (parse_ollama_response_fallback sample_loads sample_repr
                ("{" +:+ dq +:+ "summary" +:+ dq +:+ ": 7}")) as (r & Hr & _ & _ & H & _).
    rewrite Hr. f_equal. apply (H AttributeError). reflexivity.
Defined.






(** ** The message lister *)

Section ListerFacts.

Variable messages_list : string -> option string -> Res ListPage.
Variable query : string.

(** Given enough fuel the loop ends, with what it had plus every page
    served. *)
Lemma list_pages_serves (cursor : option string) (pages : list ListPage) (failed : bool) :
  serves messages_list query cursor pages failed ->
  forall (fuel : nat) (all_messages : list string),
    requests pages failed <= fuel ->
    list_pages messages_list fuel query all_messages cursor
    = Some (all_messages ++ concat (map messages pages)).
Proof.
  unfold requests.
  induction 1 as [cursor page Hp Hn | cursor e He | cursor page c t pages failed Hp Ht Hs IH];
    intros fuel acc Hf.
  - destruct fuel as [|fuel]; [simpl in Hf; lia|].
    simpl. rewrite Hp. rewrite app_nil_r.
    destruct Hn as [-> | ->]; reflexivity.
  - destruct fuel as [|fuel]; [simpl in Hf; lia|].
    simpl. rewrite He. now rewrite app_nil_r.
  - destruct fuel as [|fuel]; [simpl in Hf; lia|].
    simpl. rewrite Hp, Ht. rewrite IH by (simpl in Hf; lia).
    now rewrite <- app_assoc.
Qed.

End ListerFacts.

(** C8: the lister follows the cursors and returns, in order, the
    identifiers of every page served, whether the exchange ends with a page
    without cursor or with a request that raises (it then returns what the
    earlier pages gave, and does not raise); three chained pages of 500, 500
    and 200 identifiers give 1200. *)
Theorem get_all_unread_messages_pagination
    (messages_list : string -> option string -> Res ListPage) (query : string) :
  (forall pages failed fuel,
     serves messages_list query None pages failed ->
     requests pages failed <= fuel ->
     get_all_unread_messages messages_list fuel query
     = Some (concat (map messages pages))) /\
  (forall p1 p2 p3 fuel,
     serves messages_list query None [p1; p2; p3] false ->
     length (messages p1) = 500 ->
     length (messages p2) = 500 ->
     length (messages p3) = 200 ->
     3 <= fuel ->
     exists ids,
       get_all_unread_messages messages_list fuel query = Some ids /\
       ids = messages p1 ++ messages p2 ++ messages p3 /\
       length ids = 1200).
Proof.
  split.
  - intros pages failed fuel Hs Hf. unfold get_all_unread_messages.
    now rewrite (list_pages_serves _ _ _ _ _ Hs fuel [] Hf).
  - intros p1 p2 p3 fuel Hs L1 L2 L3 Hf.
    exists (messages p1 ++ messages p2 ++ messages p3).
    split; [|split; [reflexivity|]].
    + unfold get_all_unread_messages.
      rewrite (list_pages_serves _ _ _ _ _ Hs fuel []) by exact Hf.
      simpl. now rewrite app_nil_r.
    + rewrite !length_app, L1, L2, L3. reflexivity.
Qed.

Lemma sample_list_serves :
  serves (sample_list false) "is:unread" None
    [mkPage (repeat "a" 500) (Some "p2"); mkPage (repeat "b" 500) (Some "p3");
     mkPage (repeat "c" 200) None] false.
Proof.
  eapply serves_next; [reflexivity | reflexivity |].
  eapply serves_next; [reflexivity | reflexivity |].
  apply serves_last; [reflexivity | now left].
Qed.

Lemma sample_list_broken_serves :
  serves (sample_list true) "is:unread" None
    [mkPage (repeat "a" 500) (Some "p2"); mkPage (repeat "b" 500) (Some "p3")] true.
Proof.
  eapply serves_next; [reflexivity | reflexivity |].
  eapply serves_next; [reflexivity | reflexivity |].
  eapply serves_raise. reflexivity.
Qed.

Lemma get_all_unread_messages_pagination_witness :
  (exists ids,
     get_all_unread_messages (sample_list false) 5 "is:unread" = Some ids /\
     ids = repeat "a" 500 ++ repeat "b" 500 ++ repeat "c" 200 /\
     length ids = 1200) /\
  get_all_unread_messages (sample_list true) 5 "is:unread"
  = Some (concat [repeat "a" 500; repeat "b" 500]).
Proof.
  split.
  - apply (proj2 (get_all_unread_messages_pagination (sample_list false) "is:unread")
             (mkPage (repeat "a" 500) (Some "p2")) (mkPage (repeat "b" 500) (Some "p3"))
             (mkPage (repeat "c" 200) None) 5 sample_list_serves).
    + apply repeat_length.
    + apply repeat_length.
    + apply repeat_length.
    + lia.
  - apply (proj1 (get_all_unread_messages_pagination (sample_list true) "is:unread")
             [mkPage (repeat "a" 500) (Some "p2"); mkPage (repeat "b" 500) (Some "p3")]
             true 5 sample_list_broken_serves).
    unfold requests. simpl. lia.
Defined.

(** ** The per-message loop *)

Lemma quiet_lookup (pre : list (Call * bool)) (i : nat) (c : Call) (b : bool) :
  quiet pre = true -> pre !! i = Some (c, b) ->
  (forall values, c <> ValuesAppend values) /\ (forall id, c <> MessagesModify id).
Proof.
  unfold quiet. rewrite forallb_forall. intros Q H.
  apply list_elem_of_lookup_2, list_elem_of_In in H. specialize (Q _ H). simpl in Q.
  destruct c; try discriminate; split; intros; discriminate.
Qed.

(** Where an entry of [pre ++ tail] sits, when [pre] is quiet and the entry
    is an append or a label change. *)
Lemma loud_lookup (pre tail : list (Call * bool)) (i : nat) (c : Call) (b : bool) :
  quiet pre = true ->
  (pre ++ tail) !! i = Some (c, b) ->
  ((exists values, c = ValuesAppend values) \/ (exists id, c = MessagesModify id)) ->
  exists k, i = length pre + k /\ tail !! k = Some (c, b).
Proof.
  intros Q H Hc. apply lookup_app_Some in H as [H | [Hi H]].
  - destruct (quiet_lookup _ _ _ _ Q H) as [Ha Hm].
    destruct Hc as [[v ->] | [id ->]]; [now destruct (Ha v) | now destruct (Hm id)].
  - exists (i - length pre). split; [lia | exact H].
Qed.

Section OrchestratorFacts.

Variable fault : World -> Call -> bool.
Variable model_reply : World -> string -> string.
Variable json_loads : string -> Res value.
Variable py_repr : value -> string.
Variable b64decode_utf8 : string -> Res string.
Variable format_date : string -> Res string.

(** The three ways one turn of the loop can go: it sends no append; it
    sends an append that fails, and stops; it sends an append that succeeds
    and then asks for the label change. *)
Lemma main_step_shape (message_id : string) (r r' : Run) (res : Res unit) :
  main_step fault model_reply json_loads py_repr b64decode_utf8 format_date message_id r
    = (res, r') ->
  exists pre, quiet pre = true /\
    ((calls (world r') = calls (world r) ++ pre /\
      mailbox (world r') = mailbox (world r) /\
      sheet (world r') = sheet (world r) /\
      sheet_updates_failed (counters r') = sheet_updates_failed (counters r)) \/
     (exists values,
        calls (world r') = calls (world r) ++ pre ++ [(ValuesAppend values, false)] /\
        mailbox (world r') = mailbox (world r) /\
        sheet (world r') = sheet (world r) /\
        counters r' = sheet_updates_failed_incr (counters r)) \/
     (exists values b,
        calls (world r') = calls (world r) ++ pre ++
                             [(ValuesAppend values, true); (MessagesModify message_id, b)] /\
        sheet (world r') = sheet (world r) ++ values /\
        counters r' =
          (if b then emails_marked_read_incr else fun c => c)
            (successful_processed_incr (sheet_updates_successful_incr (counters r))))).
Proof.
  destruct r as [w c]. intros H.
  unfold main_step, process_message, try_except, bind in H.
  unfold messages_get, process_email_with_ollama, ollama_generate,
    append_single_email_to_sheet, mark_email_as_read, values_append, messages_modify,
    try_except, bind, request, lift, ret, update_counters, logged in H.
  cbn [world counters mailbox sheet calls] in H.
  destruct (fault w (MessagesGet message_id)) eqn:F1.
  { injection H as <- <-. exists [(MessagesGet message_id, false)].
    split; [reflexivity|]. left. simpl. auto. }
  destruct (mailbox w !! message_id) as [msg|] eqn:L.
  2:{ injection H as <- <-. exists [(MessagesGet message_id, false)].
      split; [reflexivity|]. left. simpl. auto. }
  cbn [world counters mailbox sheet calls] in H.
  destruct (negb (Py.mem "UNREAD" (labelIds msg))).
  { injection H as <- <-. exists [(MessagesGet message_id, true)].
    split; [reflexivity|]. left. simpl. auto. }
  destruct (extract_email_content b64decode_utf8 msg) as [content|e].
  2:{ injection H as <- <-. exists [(MessagesGet message_id, true)].
      split; [reflexivity|]. left. simpl. auto. }
  destruct (negb (Py.truthy content)).
  { injection H as <- <-. exists [(MessagesGet message_id, true)].
    split; [reflexivity|]. left. simpl. auto. }
  cbn [world counters mailbox sheet calls] in H.
  set (content' := Py.take 10000 content) in H.
  match type of H with
  | context [fault ?w' (Generate ?x)] => destruct (fault w' (Generate x))
  end.
  { injection H as <- <-.
    exists [(MessagesGet message_id, true); (Generate content', false)].
    split; [reflexivity|]. left. simpl. rewrite <- app_assoc. auto. }
  cbn [world counters mailbox sheet calls] in H.
  match type of H with
  | context [parse_ollama_response ?a ?b ?x] =>
      destruct (parse_ollama_response a b x) as [parsed|]
  end.
  2:{ injection H as <- <-.
      exists [(MessagesGet message_id, true); (Generate content', true)].
      split; [reflexivity|]. left. simpl. rewrite <- app_assoc. auto. }
  cbn [world counters mailbox sheet calls] in H.
  match type of H with
  | context [fault ?w' (ValuesAppend ?x)] =>
      set (values := x) in H; destruct (fault w' (ValuesAppend values))
  end.
  { cbn [world counters mailbox sheet calls] in H. injection H as <- <-.
    exists [(MessagesGet message_id, true); (Generate content', true)].
    split; [reflexivity|]. right. left. exists values. simpl.
    rewrite <- !app_assoc. auto. }
  cbn [world counters mailbox sheet calls] in H.
  exists [(MessagesGet message_id, true); (Generate content', true)].
  split; [reflexivity|]. right. right. exists values.
  unfold MARK_AS_READ_AFTER_PROCESSING in H.
  match type of H with
  | context [fault ?w' (MessagesModify ?x)] => destruct (fault w' (MessagesModify x))
  end.
  { cbn [world counters mailbox sheet calls] in H. injection H as <- <-.
    exists false. simpl. rewrite <- !app_assoc. auto. }
  cbn [world counters mailbox sheet calls] in H. rewrite L in H.
  cbn [world counters mailbox sheet calls] in H. injection H as <- <-.
  exists true. simpl. rewrite <- !app_assoc. auto.
Qed.

End OrchestratorFacts.

Lemma tail_lookup_one (x : Call * bool) (k : nat) (y : Call * bool) :
  [x] !! k = Some y -> k = 0 /\ y = x.
Proof. destruct k as [|[|k]]; simpl; [intros [= <-]; auto | discriminate | discriminate]. Qed.

Lemma tail_lookup_two (x1 x2 : Call * bool) (k : nat) (y : Call * bool) :
  [x1; x2] !! k = Some y -> (k = 0 /\ y = x1) \/ (k = 1 /\ y = x2).
Proof.
  destruct k as [|[|[|k]]]; simpl; try discriminate; intros [= <-]; auto.
Qed.

(** What the sheet writer returns is what the log records for its append,
    and the rows it sends are those of the row builder. *)
Lemma append_single_email_to_sheet_logged (fault : World -> Call -> bool)
    (email_data : EmailData.t) (r : Run) :
  exists ok r',
    append_single_email_to_sheet fault email_data r = (Ok ok, r') /\
    calls (world r') = calls (world r) ++ [(ValuesAppend (build_rows email_data), ok)] /\
    ok = negb (fault (world r) (ValuesAppend (build_rows email_data))) /\
    sheet (world r') = (if ok then sheet (world r) ++ build_rows email_data
                        else sheet (world r)).
Proof.
  unfold append_single_email_to_sheet, try_except, bind, values_append, request, ret, logged.
  destruct (fault (world r) (ValuesAppend (build_rows email_data)));
    eexists _, _; (split; [reflexivity|]); simpl; auto.
Qed.

(** C1: in one turn of the loop the label change is requested exactly when
    the append of that turn returned, and right after it. A request to
    change a label is for the message of the turn and comes right after an
    append that returned; an append that returned is followed at once by
    that request; and when the append raised, [sheet_updates_failed] grows
    by one, no label change is requested and the mailbox is as it was. *)
Theorem read_state_gate
    (fault : World -> Call -> bool) (model_reply : World -> string -> string)
    (json_loads : string -> Res value) (py_repr : value -> string)
    (b64decode_utf8 format_date : string -> Res string)
    (message_id : string) (r : Run) :
  let r' := snd (main_step fault model_reply json_loads py_repr
                   b64decode_utf8 format_date message_id r) in
  let log := sent_by r r' in
  calls (world r') = calls (world r) ++ log /\
  (forall i id b, log !! i = Some (MessagesModify id, b) ->
     id = message_id /\
     exists j values, i = S j /\ log !! j = Some (ValuesAppend values, true)) /\
  (forall j values, log !! j = Some (ValuesAppend values, true) ->
     exists b, log !! (S j) = Some (MessagesModify message_id, b)) /\
  (forall j values, log !! j = Some (ValuesAppend values, false) ->
     sheet_updates_failed (counters r') = S (sheet_updates_failed (counters r)) /\
     (forall i id b, log !! i <> Some (MessagesModify id, b)) /\
     mailbox (world r') = mailbox (world r)).
Proof.
  cbv zeta.
  destruct (main_step fault model_reply json_loads py_repr
              b64decode_utf8 format_date message_id r) as [res r'] eqn:E.
  cbn [snd].
  apply main_step_shape in E
    as (pre & Q & [(Hc & Hm & Hs & Hf) | [(values & Hc & Hm & Hs & Hf)
                                         | (values & b & Hc & Hs & Hf)]]);
    unfold sent_by; rewrite Hc, drop_app_length.
  - split; [reflexivity|]. split; [|split].
    + intros i id b H. rewrite <- (app_nil_r pre) in H.
      apply loud_lookup in H as (k & _ & H); [destruct k; discriminate | exact Q | eauto].
    + intros j v H. rewrite <- (app_nil_r pre) in H.
      apply loud_lookup in H as (k & _ & H); [destruct k; discriminate | exact Q | eauto].
    + intros j v H. rewrite <- (app_nil_r pre) in H.
      apply loud_lookup in H as (k & _ & H); [destruct k; discriminate | exact Q | eauto].
  - split; [reflexivity|]. split; [|split].
    + intros i id b H.
      apply loud_lookup in H as (k & _ & H); [| exact Q | eauto].
      apply tail_lookup_one in H as [_ H]. discriminate H.
    + intros j v H.
      apply loud_lookup in H as (k & _ & H); [| exact Q | eauto].
      apply tail_lookup_one in H as [_ H]. discriminate H.
    + intros j v _. split; [rewrite Hf; reflexivity|]. split; [|exact Hm].
      intros i id b H.
      apply loud_lookup in H as (k & _ & H); [| exact Q | eauto].
      apply tail_lookup_one in H as [_ H]. discriminate H.
  - split; [reflexivity|]. split; [|split].
    + intros i id b' H.
      apply loud_lookup in H as (k & -> & H); [| exact Q | eauto].
      apply tail_lookup_two in H as [[_ H] | [-> H]]; [discriminate H|].
      injection H as -> ->. split; [reflexivity|].
      exists (length pre), values. split; [lia|].
      now rewrite list_lookup_middle.
    + intros j v H.
      apply loud_lookup in H as (k & -> & H); [| exact Q | eauto].
      apply tail_lookup_two in H as [[-> H] | [_ H]]; [|discriminate H].
      exists b. replace (S (length pre + 0)) with (length pre + 1) by lia.
      rewrite lookup_app_r by lia. now replace (length pre + 1 - length pre) with 1 by lia.
    + intros j v H.
      apply loud_lookup in H as (k & _ & H); [| exact Q | eauto].
      apply tail_lookup_two in H as [[_ H] | [_ H]]; discriminate H.
Qed.

Lemma read_state_gate_witness :
  let r' := snd (main_step append_fault sample_reply sample_loads sample_repr
                   Ok Ok "m1" sample_run) in
  sheet_updates_failed (counters r') = 1 /\
  (forall i id b, sent_by sample_run r' !! i <> Some (MessagesModify id, b)) /\
  mailbox (world r') = mailbox sample_world.
Proof.
  cbv zeta.
  destruct (read_state_gate append_fault sample_reply sample_loads sample_repr
              Ok Ok "m1" sample_run) as (_ & _ & _ & H).
  eapply (H 2). vm_compute. reflexivity.
Defined.

Lemma messages_get_ok (fault : World -> Call -> bool) (message_id : string)
    (r : Run) (msg : Message) :
  fst (messages_get fault message_id r) = Ok msg ->
  fault (world r) (MessagesGet message_id) = false /\
  mailbox (world r) !! message_id = Some msg.
Proof.
  unfold messages_get, request. cbn [world].
  destruct (fault (world r) (MessagesGet message_id)); [discriminate|].
  destruct (mailbox (world r) !! message_id); [|discriminate].
  intros [= ->]. auto.
Qed.

(** C10: when the message fetched no longer carries UNREAD, the turn leaves
    the five counters as they were; when it carries UNREAD and its extracted
    content is empty, [failed_processed] grows by one and the other four
    counters are as they were. *)
Theorem skipped_message_counters
    (fault : World -> Call -> bool) (model_reply : World -> string -> string)
    (json_loads : string -> Res value) (py_repr : value -> string)
    (b64decode_utf8 format_date : string -> Res string)
    (message_id : string) (r : Run) (msg : Message) :
  fst (messages_get fault message_id r) = Ok msg ->
  let r' := snd (main_step fault model_reply json_loads py_repr
                   b64decode_utf8 format_date message_id r) in
  (~ In "UNREAD" (labelIds msg) ->
     successful_processed (counters r') = successful_processed (counters r) /\
     failed_processed (counters r') = failed_processed (counters r) /\
     emails_marked_read (counters r') = emails_marked_read (counters r) /\
     sheet_updates_successful (counters r') = sheet_updates_successful (counters r) /\
     sheet_updates_failed (counters r') = sheet_updates_failed (counters r)) /\
  (In "UNREAD" (labelIds msg) ->
   extract_email_content b64decode_utf8 msg = Ok "" ->
     successful_processed (counters r') = successful_processed (counters r) /\
     failed_processed (counters r') = S (failed_processed (counters r)) /\
     emails_marked_read (counters r') = emails_marked_read (counters r) /\
     sheet_updates_successful (counters r') = sheet_updates_successful (counters r) /\
     sheet_updates_failed (counters r') = sheet_updates_failed (counters r)).
Proof.
  intros G. apply messages_get_ok in G as [F L]. destruct r as [w c].
  cbn [world] in F, L. cbv zeta.
  unfold main_step, process_message, try_except, bind.
  unfold messages_get, request, lift, ret, update_counters.
  cbn [world counters]. rewrite F, L.
  split.
  - intros N.
    assert (E : Py.mem "UNREAD" (labelIds msg) = false).
    { destruct (Py.mem "UNREAD" (labelIds msg)) eqn:E; [|reflexivity].
      apply mem_spec in E. contradiction. }
    rewrite E. simpl. auto.
  - intros U C. apply mem_spec in U. rewrite U, C. simpl. auto.
Qed.

Lemma skipped_message_counters_witness :
  let r2 := snd (main_step no_fault sample_reply sample_loads sample_repr
                   Ok Ok "m2" sample_run) in
  let r3 := snd (main_step no_fault sample_reply sample_loads sample_repr
                   Ok Ok "m3" sample_run) in
  (successful_processed (counters r2) = 0 /\
   failed_processed (counters r2) = 0 /\
   emails_marked_read (counters r2) = 0 /\
   sheet_updates_successful (counters r2) = 0 /\
   sheet_updates_failed (counters r2) = 0) /\
  (successful_processed (counters r3) = 0 /\
   failed_processed (counters r3) = 1 /\
   emails_marked_read (counters r3) = 0 /\
   sheet_updates_successful (counters r3) = 0 /\
   sheet_updates_failed (counters r3) = 0).
Proof.
  split.
  - apply (proj1 (skipped_message_counters no_fault sample_reply sample_loads sample_repr
                    Ok Ok "m2" sample_run (mkMessage ["INBOX"] (payload sample_message))
                    eq_refl)).
    simpl. intros [E | []]. discriminate E.
  - apply (proj2 (skipped_message_counters no_fault sample_reply sample_loads sample_repr
                    Ok Ok "m3" sample_run
                    (mkMessage ["UNREAD"] (Some (mkPart "text/html" [] (Some "x") [])))
                    eq_refl)).
    + simpl. auto.
    + reflexivity.
Defined.

(** * Further properties *)

(** ** The phone formatter, continued *)

Lemma filter_app (p : ascii -> bool) (a b : string) :
  Py.filter p (a +:+ b) = Py.filter p a +:+ Py.filter p b.
Proof.
  induction a as [|c a IH]; [reflexivity|].
  rewrite app_cons. simpl. destruct (p c); [|exact IH].
  now rewrite app_cons, IH.
Qed.

Lemma all_chars_filter (p : ascii -> bool) (s : string) :
  all_chars p (Py.filter p s) = true.
Proof.
  induction s as [|c s IH]; [reflexivity|]. simpl.
  destruct (p c) eqn:E; [|exact IH]. simpl. now rewrite E.
Qed.

Lemma filter_all_chars (p : ascii -> bool) (s : string) :
  all_chars p s = true -> Py.filter p s = s.
Proof.
  induction s as [|c s IH]; [reflexivity|]. simpl.
  intros H. apply andb_true_iff in H as [-> H]. now rewrite IH.
Qed.

Lemma all_chars_take (p : ascii -> bool) (n : nat) (s : string) :
  all_chars p s = true -> all_chars p (Py.take n s) = true.
Proof.
  revert s; induction n as [|n IH]; intros [|c s]; simpl; try reflexivity.
  intros H. apply andb_true_iff in H as [-> H]. now apply IH.
Qed.

Lemma all_chars_drop (p : ascii -> bool) (n : nat) (s : string) :
  all_chars p s = true -> all_chars p (Py.drop n s) = true.
Proof.
  revert s; induction n as [|n IH]; intros [|c s]; simpl; auto.
  intros H. apply andb_true_iff in H as [_ H]. now apply IH.
Qed.

Lemma space_not_digit (c : ascii) : Py.isspace c = true -> Py.isdigit c = false.
Proof. destruct c as [[] [] [] [] [] [] [] []]; vm_compute; congruence. Qed.

Lemma space_not_trigger (c : ascii) : Py.isspace c = true -> formula_trigger c = false.
Proof. destruct c as [[] [] [] [] [] [] [] []]; vm_compute; congruence. Qed.

Lemma digits_lstrip (s : string) : digits_of (Py.lstrip s) = digits_of s.
Proof.
  unfold digits_of. induction s as [|c s IH]; [reflexivity|]. simpl.
  destruct (Py.isspace c) eqn:E; [|reflexivity].
  now rewrite (space_not_digit c E).
Qed.

Lemma digits_rstrip (s : string) : digits_of (Py.rstrip s) = digits_of s.
Proof.
  unfold digits_of. induction s as [|c s IH]; [reflexivity|].
  rewrite rstrip_cons. simpl Py.filter at 2. rewrite <- IH.
  destruct (Py.rstrip s) as [|d r]; [|reflexivity].
  destruct (Py.isspace c) eqn:E.
  - now rewrite (space_not_digit c E).
  - reflexivity.
Qed.

Lemma digits_strip (s : string) : digits_of (Py.strip s) = digits_of s.
Proof. unfold Py.strip. now rewrite digits_lstrip, digits_rstrip. Qed.

Lemma digits_guard (x : string) : digits_of (guard_formula x) = digits_of x.
Proof.
  unfold guard_formula. destruct x as [|c r]; [reflexivity|].
  destruct (formula_trigger c); reflexivity.
Qed.

(** The digits of a layout are the digits laid out. *)
Lemma digits_layout10 (a b c : string) :
  all_chars Py.isdigit a = true -> all_chars Py.isdigit b = true ->
  all_chars Py.isdigit c = true ->
  digits_of ("(" +:+ a +:+ ") " +:+ b +:+ "-" +:+ c) = a +:+ b +:+ c.
Proof.
  intros Ha Hb Hc. unfold digits_of. rewrite !filter_app.
  rewrite (filter_all_chars _ a Ha), (filter_all_chars _ b Hb), (filter_all_chars _ c Hc).
  reflexivity.
Qed.

Lemma digits_layout7 (a b : string) :
  all_chars Py.isdigit a = true -> all_chars Py.isdigit b = true ->
  digits_of (a +:+ "-" +:+ b) = a +:+ b.
Proof.
  intros Ha Hb. unfold digits_of. rewrite !filter_app.
  rewrite (filter_all_chars _ a Ha), (filter_all_chars _ b Hb). reflexivity.
Qed.

Lemma layout10_digits (d : string) :
  all_chars Py.isdigit d = true ->
  digits_of ("(" +:+ Py.take 3 d +:+ ") " +:+ Py.slice 3 6 d +:+ "-" +:+ Py.drop 6 d) = d.
Proof.
  intros H. rewrite digits_layout10.
  - symmetry. exact (three_slices 3 3 d).
  - now apply all_chars_take.
  - unfold Py.slice. now apply all_chars_take, all_chars_drop.
  - now apply all_chars_drop.
Qed.

(** The digits of the result: those of the input, less the leading 1 of an
    eleven-digit number. *)
Lemma digits_of_format (phone : string) :
  digits_of (format_phone_number phone) =
    if (String.length (digits_of phone) =? 11) && Py.startswith "1" (digits_of phone)
    then Py.drop 1 (digits_of phone) else digits_of phone.
Proof.
  rewrite format_phone_number_unfold. cbv zeta.
  pose proof (all_chars_filter Py.isdigit phone) as A. fold (digits_of phone) in A.
  set (d := digits_of phone) in *.
  destruct (String.length d =? 10) eqn:E10.
  - apply Nat.eqb_eq in E10. rewrite E10. simpl. now apply layout10_digits.
  - destruct ((String.length d =? 11) && Py.startswith "1" d) eqn:E11.
    + apply layout10_digits. now apply all_chars_drop.
    + destruct (String.length d =? 7).
      * rewrite digits_layout7; [apply take_drop_string | |].
        -- now apply all_chars_take.
        -- now apply all_chars_drop.
      * now rewrite digits_guard, digits_strip.
Qed.

(** X1: the formatter neither loses nor invents a digit. The digits of its
    result are the digits of the input, in order, except that an
    eleven-digit number led by 1 loses that 1. *)
Theorem format_phone_number_keeps_digits (phone : string) :
  let digits := Py.filter Py.isdigit phone in
  let result_digits := Py.filter Py.isdigit (format_phone_number phone) in
  (forall rest, String.length digits = 11 -> digits = String "1" rest ->
     result_digits = rest) /\
  (~ (String.length digits = 11 /\ exists rest, digits = String "1" rest) ->
     result_digits = digits).
Proof.
  cbv zeta. pose proof (digits_of_format phone) as H. unfold digits_of in H.
  split.
  - intros rest L E. rewrite H, L, E. reflexivity.
  - intros N. rewrite H.
    destruct ((String.length (Py.filter Py.isdigit phone) =? 11)
              && Py.startswith "1" (Py.filter Py.isdigit phone)) eqn:E; [|reflexivity].
    exfalso. apply N. apply andb_true_iff in E as [E1 E2].
    apply Nat.eqb_eq in E1. apply startswith_spec in E2 as [rest E2].
    split; [exact E1 | now exists rest].
Qed.

Lemma format_phone_number_keeps_digits_witness :
  Py.filter Py.isdigit (format_phone_number "+1 (555) 123-4567") = "5551234567" /\
  Py.filter Py.isdigit (format_phone_number "ext. 42") = "42".
Proof.
  split.
  - apply (proj1 (format_phone_number_keeps_digits "+1 (555) 123-4567") "5551234567");
      reflexivity.
  - apply (proj2 (format_phone_number_keeps_digits "ext. 42")).
    vm_compute. intros [H _]. discriminate H.
Defined.

Lemma guard_formula_safe (x : string) : ~ begins_with_trigger (guard_formula x).
Proof.
  intros (c & r & E & H). apply formula_trigger_spec in H.
  unfold guard_formula in E. destruct x as [|c0 r0]; [discriminate|].
  destruct (formula_trigger c0) eqn:T.
  - injection E as <- _. discriminate H.
  - injection E as <- _. congruence.
Qed.

Lemma guard_formula_fixed (x : string) :
  ~ begins_with_trigger x -> guard_formula x = x.
Proof. intros H. now apply (guard_formula_neutralized x). Qed.

Lemma rstrip_strip (s : string) : Py.rstrip (Py.strip s) = Py.strip s.
Proof. unfold Py.strip. now rewrite rstrip_lstrip, rstrip_idem. Qed.

(** The guarded trimmed input is already trimmed. *)
Lemma strip_guard_strip (s : string) :
  Py.strip (guard_formula (Py.strip s)) = guard_formula (Py.strip s).
Proof.
  pose proof (rstrip_strip s) as R. pose proof (strip_idem s) as I.
  destruct (Py.strip s) as [|c r] eqn:E; [reflexivity|].
  unfold guard_formula. destruct (formula_trigger c); [|exact I].
  unfold Py.strip. rewrite rstrip_cons, R. reflexivity.
Qed.

(** X2: formatting is stable: the formatter returns its own results
    unchanged. *)
Theorem format_phone_number_idempotent (phone : string) :
  format_phone_number (format_phone_number phone) = format_phone_number phone.
Proof.
  pose proof (format_phone_number_unfold phone) as O. cbv zeta in O.
  pose proof (digits_of_format phone) as D.
  set (out := format_phone_number phone) in *.
  rewrite (format_phone_number_unfold out). cbv zeta. rewrite D. clear D.
  set (d := digits_of phone) in *.
  destruct (String.length d =? 10) eqn:E10.
  - assert (E11 : (String.length d =? 11) && Py.startswith "1" d = false).
    { apply Nat.eqb_eq in E10. now rewrite E10. }
    rewrite E11, E10. now symmetry.
  - destruct ((String.length d =? 11) && Py.startswith "1" d) eqn:E11.
    + apply andb_true_iff in E11 as [L _]. apply Nat.eqb_eq in L.
      rewrite length_drop_string, L. now symmetry.
    + rewrite E10, E11. destruct (String.length d =? 7) eqn:E7; [now symmetry|].
      rewrite O, strip_guard_strip. apply guard_formula_fixed, guard_formula_safe.
Qed.

(** X3: no result of the formatter begins with [=], [+], [-] or [@]. *)
Theorem format_phone_number_safe (phone : string) :
  ~ begins_with_trigger (format_phone_number phone).
Proof.
  rewrite format_phone_number_guard. intros (c & r & E & H).
  apply (guard_formula_safe (phone_layout phone)). now exists c, r.
Qed.

(** ** The row builder, continued *)

Lemma empty_safe : ~ begins_with_trigger "".
Proof. intros (c & r & E & _). discriminate E. Qed.

(** X4: in every row the builder emits, none of the first four cells (Name,
    Email, Phone, Summary) begins with [=], [+], [-] or [@]. *)
Theorem build_rows_safe (email_data : EmailData.t) (row : list string)
    (i : nat) (cell : string) :
  In row (build_rows email_data) ->
  i < 4 ->
  row !! i = Some cell ->
  ~ begins_with_trigger cell.
Proof.
  destruct email_data as [link s cs t day]. unfold build_rows. simpl.
  intros H Hi Hc.
  assert (R : exists n e p,
             row = [n; e; p; guard_formula s; t; day; link] /\
             ~ begins_with_trigger n /\ ~ begins_with_trigger e /\
             ~ begins_with_trigger p).
  { destruct cs as [|c0 cs'].
    - destruct H as [<- | []]. exists "", "", "".
      repeat split; auto using empty_safe.
    - change (In row (map (contact_row (guard_formula s) t day link) (c0 :: cs'))) in H.
      apply in_map_iff in H as (c & <- & _). rewrite contact_row_fields.
      rewrite format_phone_number_guard.
      eexists _, _, _. split; [reflexivity|].
      repeat split; apply guard_formula_safe. }
  destruct R as (n & e & p & -> & Hn & He & Hp).
  destruct i as [|[|[|[|i]]]]; simpl in Hc; try lia; injection Hc as <-; auto.
  apply guard_formula_safe.
Qed.

Lemma build_rows_safe_witness :
  ~ begins_with_trigger "'=IMPORTXML(A1)".
Proof.
  apply (build_rows_safe
           (EmailData.mk "link" "sum" [mkContact "=IMPORTXML(A1)" "" ""] "unknown" "day")
           ["'=IMPORTXML(A1)"; ""; ""; "sum"; "unknown"; "day"; "link"] 0).
  - simpl. left. reflexivity.
  - lia.
  - reflexivity.
Defined.

(** ** The response parser, continued *)

Lemma contains_char_cons (ch x : ascii) (s : string) :
  Py.contains (String ch "") (String x s)
  = Ascii.eqb ch x || Py.contains (String ch "") s.
Proof. simpl. destruct s; now rewrite andb_true_r. Qed.

Lemma after_first_open_exact (s r : string) :
  Re.after_first_open s = Some r <->
  exists a, s = a +:+ "{" +:+ r /\ Py.contains "{" a = false.
Proof.
  split.
  - revert r; induction s as [|c s IH]; intros r; simpl; [discriminate|].
    destruct (Ascii.eqb c "{") eqn:E.
    + apply Ascii.eqb_eq in E as ->. intros [= ->]. now exists EmptyString.
    + intros H. destruct (IH r H) as (a & -> & Ha). exists (String c a).
      split; [reflexivity|]. rewrite contains_char_cons, Ha.
      rewrite Ascii.eqb_sym, E. reflexivity.
  - intros (a & -> & Ha). induction a as [|x a IH]; [reflexivity|].
    rewrite contains_char_cons in Ha. apply orb_false_iff in Ha as [Hx Ha].
    rewrite app_cons. simpl. rewrite Ascii.eqb_sym, Hx. now apply IH.
Qed.

Lemma upto_last_close_none (c : string) :
  Py.contains "}" c = false -> Re.upto_last_close c = None.
Proof.
  induction c as [|x c IH]; [reflexivity|].
  rewrite contains_char_cons. intros H. apply orb_false_iff in H as [Hx Hc].
  simpl. rewrite (IH Hc). now rewrite Ascii.eqb_sym, Hx.
Qed.

Lemma upto_last_close_exact (s p : string) :
  Re.upto_last_close s = Some p <->
  exists b c, p = b +:+ "}" /\ s = p +:+ c /\ Py.contains "}" c = false.
Proof.
  split.
  - revert p; induction s as [|x s IH]; intros p; simpl; [discriminate|].
    destruct (Re.upto_last_close s) as [p'|] eqn:U.
    + intros [= <-]. destruct (IH p' eq_refl) as (b & c & -> & -> & Hc).
      exists (String x b), c. now rewrite !app_cons.
    + destruct (Ascii.eqb x "}") eqn:E; [|discriminate].
      apply Ascii.eqb_eq in E as ->. intros [= <-].
      exists EmptyString, s. repeat split.
      destruct (Py.contains "}" s) eqn:C; [|reflexivity].
      apply contains_spec in C as (u & v & ->).
      now destruct (upto_last_close_finds u v).
  - intros (b & c & -> & -> & Hc). induction b as [|x b IH].
    + rewrite app_empty, app_cons, app_empty. simpl.
      now rewrite (upto_last_close_none c Hc).
    + rewrite !app_cons. simpl. now rewrite IH.
Qed.

(** X5: the search of the parser returns the span from the first opening
    brace of the text to its last closing brace, and nothing when no closing
    brace follows the first opening one. *)
Theorem search_braces_first_to_last (s m : string) :
  Re.search_braces s = Some m <->
  exists a b c,
    s = a +:+ m +:+ c /\ m = "{" +:+ b +:+ "}" /\
    Py.contains "{" a = false /\ Py.contains "}" c = false.
Proof.
  unfold Re.search_braces. split.
  - destruct (Re.after_first_open s) as [r|] eqn:A; [|discriminate].
    apply after_first_open_exact in A as (a & -> & Ha).
    destruct (Re.upto_last_close r) as [p|] eqn:U; [|discriminate].
    apply upto_last_close_exact in U as (b & c & -> & -> & Hc).
    intros [= <-]. exists a, b, c. repeat split; auto.
  - intros (a & b & c & -> & -> & Ha & Hc).
    assert (A : Re.after_first_open (a +:+ ("{" +:+ b +:+ "}") +:+ c)
                = Some ((b +:+ "}") +:+ c)).
    { apply after_first_open_exact. exists a. split; [reflexivity | exact Ha]. }
    rewrite A.
    assert (U : Re.upto_last_close ((b +:+ "}") +:+ c) = Some (b +:+ "}")).
    { apply upto_last_close_exact. exists b, c. repeat split; auto. }
    now rewrite U.
Qed.

Lemma search_braces_first_to_last_witness :
  Re.search_braces "so {a} and {b} end" = Some "{a} and {b}".
Proof.
  apply (proj2 (search_braces_first_to_last "so {a} and {b} end" "{a} and {b}")).
  exists "so ", "a} and {b", " end". repeat split; reflexivity.
Defined.

Section ParserFacts2.

Variable json_loads : string -> Res value.
Variable py_repr : value -> string.

(** Where a kept contact comes from: an object of the raw list, cleaned
    field by field, with one field at least left non-empty. *)
Lemma parsed_contact_origin (out : string) (r : ExtractionRecord) (c : Contact) :
  parse_ollama_response json_loads py_repr out = Ok r ->
  In c (contacts r) ->
  exists d,
    c = {| name := clean_field py_repr d "name";
           email := clean_field py_repr d "email";
           phone := clean_field py_repr d "phone" |} /\
    Py.truthy (name c) || Py.truthy (email c) || Py.truthy (phone c) = true.
Proof.
  intros H Hc.
  destruct (parse_ollama_response_cases json_loads py_repr out) as [E | (r' & Ht & E)];
    rewrite E in H; injection H as <-; [destruct Hc|].
  unfold parse_try in Ht. destruct (Re.search_braces out); [|discriminate].
  destruct (json_loads s) as [parsed|]; [|discriminate]. simpl in Ht.
  destruct (PyValue.get parsed "summary" _) as [v|]; [|discriminate]. simpl in Ht.
  destruct (str_strip v); [|discriminate]. simpl in Ht.
  destruct (PyValue.get parsed "assistance_type" _) as [v'|]; [|discriminate]. simpl in Ht.
  destruct (str_strip v'); [|discriminate]. simpl in Ht.
  destruct (PyValue.get parsed "contacts" _) as [raw|]; [|discriminate]. simpl in Ht.
  injection Ht as <-. cbn [contacts] in Hc.
  unfold clean_contacts in Hc. destruct raw as [| | | | |l|]; try destruct Hc.
  apply in_concat in Hc as (cs & Hcs & Hc). apply in_map_iff in Hcs as (x & <- & _).
  unfold clean_contact in Hc. destruct x as [| | | | | |d]; try destruct Hc.
  match type of Hc with
  | In _ (if ?b then _ else _) => destruct b eqn:B; [|destruct Hc]
  end.
  destruct Hc as [<- | []]. exists d. split; [reflexivity | exact B].
Qed.

Lemma truthy_nonempty (s : string) : Py.truthy s = true <-> s <> "".
Proof. destruct s; simpl; split; congruence. Qed.

End ParserFacts2.

(** X6: every contact the parser keeps has trimmed fields, and one of them
    at least is not empty. *)
Theorem parsed_contacts_kept
    (json_loads : string -> Res value) (py_repr : value -> string)
    (out : string) (r : ExtractionRecord) (c : Contact) :
  parse_ollama_response json_loads py_repr out = Ok r ->
  In c (contacts r) ->
  (name c <> "" \/ email c <> "" \/ phone c <> "") /\
  Py.strip (name c) = name c /\
  Py.strip (email c) = email c /\
  Py.strip (phone c) = phone c.
Proof.
  intros H Hc.
  destruct (parsed_contact_origin json_loads py_repr out r c H Hc) as (d & -> & B).
  cbn [name email phone] in *. split.
  - apply orb_true_iff in B as [B | B]; [apply orb_true_iff in B as [B | B]|];
      apply truthy_nonempty in B; auto.
  - repeat split; apply clean_field_trimmed.
Qed.

Lemma parsed_contacts_kept_witness :
  ("Jane" <> "" \/ "" <> "" \/ "5551234" <> "") /\
  Py.strip "Jane" = "Jane" /\ Py.strip "" = "" /\ Py.strip "5551234" = "5551234".
Proof.
  apply (parsed_contacts_kept contacts_loads sample_repr "{two contacts}"
           {| summary := "s";
              contacts := [mkContact "Jane" "" "5551234"];
              assistance_type := "providing" |}
           (mkContact "Jane" "" "5551234")).
  - reflexivity.
  - simpl. left. reflexivity.
Defined.



(** X8: a summary or an assistance type that is present but is not a string
    (null, a number, a list) makes the parser fall back, whatever the
    contacts are: the defaults stand in for absent keys only. *)
Theorem parse_ollama_response_non_string
    (json_loads : string -> Res value) (py_repr : value -> string)
    (out js : string) (d : list (string * value)) (v : value) :
  Re.search_braces out = Some js ->
  json_loads js = Ok (VDict d) ->
  is_str v = false ->
  (PyValue.lookup "summary" d = Some v \/
   PyValue.lookup "assistance_type" d = Some v) ->
  parse_ollama_response json_loads py_repr out = Ok (fallback_response out).
Proof.
  intros Hs Hj Hv H.
  unfold parse_ollama_response, parse_try. rewrite Hs, Hj. simpl.
  destruct H as [H | H].
  - rewrite H. simpl. destruct v; try discriminate Hv; reflexivity.
  - destruct (str_strip (default (VStr "No summary provided")
                           (PyValue.lookup "summary" d))) as [s|e] eqn:S;
      [|simpl; now destruct e].
    simpl. rewrite H. simpl. destruct v; try discriminate Hv; reflexivity.
Qed.

Lemma parse_ollama_response_non_string_witness :
  parse_ollama_response sample_loads sample_repr
    ("{" +:+ dq +:+ "summary" +:+ dq +:+ ": 7}")
  = Ok (fallback_response ("{" +:+ dq +:+ "summary" +:+ dq +:+ ": 7}")).
Proof.
  apply (parse_ollama_response_non_string sample_loads sample_repr _
           ("{" +:+ dq +:+ "summary" +:+ dq +:+ ": 7}") [("summary", VInt 7)] (VInt 7)).
  - reflexivity.
  - reflexivity.
  - reflexivity.
  - left. reflexivity.
Defined.

(** ** The message lister, continued *)

Section ListerFacts2.

Variable messages_list : string -> option string -> Res ListPage.
Variable query : string.

(** Whatever the loop returns is what it had plus the pages of an exchange
    that ended within the fuel. *)
Lemma list_pages_inv (fuel : nat) (all_messages : list string)
    (cursor : option string) (ids : list string) :
  list_pages messages_list fuel query all_messages cursor = Some ids ->
  exists pages failed,
    serves messages_list query cursor pages failed /\
    requests pages failed <= fuel /\
    ids = all_messages ++ concat (map messages pages).
Proof.
  revert all_messages cursor.
  induction fuel as [|fuel IH]; intros acc cursor; simpl; [discriminate|].
  destruct (messages_list query cursor) as [page|e] eqn:E.
  - destruct (nextPageToken page) as [[|c t]|] eqn:T.
    + intros [= <-]. exists [page], false. split; [|split].
      * apply serves_last; [exact E | now right].
      * unfold requests. simpl. lia.
      * simpl. now rewrite app_nil_r.
    + intros H. destruct (IH _ _ H) as (pages & failed & Hs & Hr & ->).
      exists (page :: pages), failed. split; [|split].
      * eapply serves_next; eauto.
      * unfold requests in *. simpl. lia.
      * simpl. now rewrite <- app_assoc.
    + intros [= <-]. exists [page], false. split; [|split].
      * apply serves_last; [exact E | now left].
      * unfold requests. simpl. lia.
      * simpl. now rewrite app_nil_r.
  - intros [= <-]. exists [], true. split; [|split].
    + eapply serves_raise. exact E.
    + unfold requests. simpl. lia.
    + simpl. now rewrite app_nil_r.
Qed.

(** While every answer carries a cursor the loop goes on. *)
Lemma list_pages_endless (fuel : nat) (all_messages : list string)
    (cursor : option string) :
  (forall cur, exists page c t,
      messages_list query cur = Ok page /\ nextPageToken page = Some (String c t)) ->
  list_pages messages_list fuel query all_messages cursor = None.
Proof.
  intros H. revert all_messages cursor.
  induction fuel as [|fuel IH]; intros acc cursor; simpl; [reflexivity|].
  destruct (H cursor) as (page & c & t & -> & ->). apply IH.
Qed.

End ListerFacts2.

(** X9: the lister returns nothing of its own: a listing it returns is the
    concatenation, in order, of the pages of an exchange with the
    collaborator that ended with a page without cursor or with a raise. *)
Theorem get_all_unread_messages_sound
    (messages_list : string -> option string -> Res ListPage)
    (query : string) (fuel : nat) (ids : list string) :
  get_all_unread_messages messages_list fuel query = Some ids ->
  exists pages failed,
    serves messages_list query None pages failed /\
    requests pages failed <= fuel /\
    ids = concat (map messages pages).
Proof.
  unfold get_all_unread_messages. intros H.
  destruct (list_pages_inv _ _ _ _ _ _ H) as (pages & failed & Hs & Hr & ->).
  now exists pages, failed.
Qed.

Lemma get_all_unread_messages_sound_witness :
  exists pages failed,
    serves (sample_list true) "is:unread" None pages failed /\
    requests pages failed <= 3 /\
    repeat "a" 500 ++ repeat "b" 500 = concat (map messages pages).
Proof.
  apply (get_all_unread_messages_sound (sample_list true) "is:unread" 3).
  vm_compute. reflexivity.
Defined.

(** X10: the loop has no bound of its own: while the collaborator answers
    every request with a page that carries a cursor, the listing does not
    end, whatever the number of requests allowed. *)
Theorem get_all_unread_messages_endless
    (messages_list : string -> option string -> Res ListPage)
    (query : string) (fuel : nat) :
  (forall cursor, exists page c t,
      messages_list query cursor = Ok page /\
      nextPageToken page = Some (String c t)) ->
  get_all_unread_messages messages_list fuel query = None.
Proof. intros H. unfold get_all_unread_messages. now apply list_pages_endless. Qed.

Lemma get_all_unread_messages_endless_witness :
  get_all_unread_messages endless_list 1000 "is:unread" = None.
Proof.
  apply (get_all_unread_messages_endless endless_list "is:unread" 1000).
  intros cursor. now exists (mkPage ["m"] (Some "more")), "m"%char, "ore".
Defined.

(** ** The extractors *)

Lemma Part_forall_ind (P : Part -> Prop) :
  (forall m h d parts, Forall P parts -> P (mkPart m h d parts)) ->
  forall p, P p.
Proof.
  intros H. fix IH 1. intros [m h d parts]. apply H.
  induction parts as [|p ps IHps]; constructor; [apply IH | exact IHps].
Qed.

Lemma first_decoded_app (decode : string -> Res string) (a b : list string) :
  first_decoded decode (a ++ b) =
    match first_decoded decode a with
    | Ok t => if Py.truthy t then Ok t else first_decoded decode b
    | Raise e => Raise e
    end.
Proof.
  induction a as [|d a IH]; [reflexivity|]. simpl.
  destruct (decode d) as [t|e]; [|reflexivity].
  destruct (Py.truthy t) eqn:T; [now rewrite T | exact IH].
Qed.

Lemma first_decoded_one (decode : string -> Res string) (d : string) :
  first_decoded decode [d] = decode d.
Proof. simpl. destruct (decode d) as [[|c t]|e]; reflexivity. Qed.

(** The search is the first non-empty decoding along [plain_datas]. *)
Lemma find_text_scan (decode : string -> Res string) (part : Part) :
  find_text decode part = first_decoded decode (plain_datas part).
Proof.
  induction part as [m h d parts IH] using Part_forall_ind.
  cbn [find_text plain_datas].
  destruct (if String.eqb m "text/plain" then d else None) as [x|].
  - now rewrite first_decoded_one.
  - induction IH as [|p ps Hp _ IHps]; [reflexivity|].
    rewrite first_decoded_app, <- Hp. unfold res_bind.
    destruct (find_text decode p) as [t|e]; [|reflexivity].
    destruct (Py.truthy t); [reflexivity | exact IHps].
Qed.

Lemma first_decoded_sound (decode : string -> Res string) (ds : list string) (t : string) :
  first_decoded decode ds = Ok t -> t <> "" ->
  exists d, In d ds /\ decode d = Ok t.
Proof.
  induction ds as [|d ds IH]; simpl; [intros [= <-]; congruence|].
  destruct (decode d) as [t'|e] eqn:E; [|discriminate].
  destruct (Py.truthy t').
  - intros [= <-] _. exists d. auto.
  - intros H N. destruct (IH H N) as (d' & Hd & Hx). exists d'. auto.
Qed.

Lemma first_decoded_raise (decode : string -> Res string) (ds : list string) (e : exn) :
  first_decoded decode ds = Raise e -> exists d, In d ds /\ decode d = Raise e.
Proof.
  induction ds as [|d ds IH]; simpl; [discriminate|].
  destruct (decode d) as [t'|e'] eqn:E.
  - destruct (Py.truthy t'); [discriminate|].
    intros H. destruct (IH H) as (d' & Hd & Hx). exists d'. auto.
  - intros [= <-]. exists d. auto.
Qed.

(** X11: the content of a message is the first non-empty decoding among the
    inline data of its text/plain parts, taken in document order; a part
    that fails to decode before one is found makes the extraction raise, and
    a message without payload makes it raise too. *)
Theorem extract_email_content_first_plain
    (b64decode_utf8 : string -> Res string) (message : Message) :
  extract_email_content b64decode_utf8 message =
    match payload message with
    | Some p => first_decoded b64decode_utf8 (plain_datas p)
    | None => Raise KeyError
    end.
Proof.
  unfold extract_email_content. destruct (payload message); [|reflexivity].
  apply find_text_scan.
Qed.

(** X12: what the extraction returns comes from the message. A non-empty
    content is the decoding of the inline data of one of its text/plain
    parts; when no text/plain part carries data the content is empty and
    nothing is decoded; and the extraction raises on a message with a
    payload only when a decoding does. *)
Theorem extract_email_content_sound
    (b64decode_utf8 : string -> Res string) (labels : list string) (p : Part) :
  let message := mkMessage labels (Some p) in
  (forall t, extract_email_content b64decode_utf8 message = Ok t -> t <> "" ->
     exists d, In d (plain_datas p) /\ b64decode_utf8 d = Ok t) /\
  (plain_datas p = [] -> extract_email_content b64decode_utf8 message = Ok "") /\
  (forall e, extract_email_content b64decode_utf8 message = Raise e ->
     exists d, In d (plain_datas p) /\ b64decode_utf8 d = Raise e).
Proof.
  cbv zeta. unfold extract_email_content. cbn [payload].
  rewrite find_text_scan. split; [|split].
  - intros t. apply first_decoded_sound.
  - intros ->. reflexivity.
  - intros e. apply first_decoded_raise.
Qed.

Lemma extract_email_content_sound_witness :
  (exists d, In d (plain_datas sample_multipart) /\ Ok d = Ok "hello") /\
  extract_email_content Ok
    (mkMessage [] (Some (mkPart "text/html" [] (Some "<p>x</p>") []))) = Ok "".
Proof.
  split.
  - apply (proj1 (extract_email_content_sound Ok [] sample_multipart) "hello").
    + reflexivity.
    + discriminate.
  - apply (proj1 (proj2 (extract_email_content_sound Ok []
                           (mkPart "text/html" [] (Some "<p>x</p>") [])))).
    reflexivity.
Defined.

Lemma first_date_header_skip (format_date : string -> Res string)
    (pre rest : list Header) :
  Forall (fun x => is_date_header x = false) pre ->
  first_date_header format_date (pre ++ rest) = first_date_header format_date rest.
Proof.
  induction 1 as [|x pre Hx _ IH]; [reflexivity|].
  simpl. unfold is_date_header in Hx. now rewrite Hx.
Qed.

(** X13: the sent date comes from the first header named Date, in any
    letter case: its value formatted, or its value as it stands when the
    formatting raises. Without such a header, or without payload, the date
    is the empty string. *)
Theorem extract_email_date_first_header
    (format_date : string -> Res string) (labels : list string)
    (m : string) (hs : list Header) (d : option string) (parts : list Part) :
  let message := mkMessage labels (Some (mkPart m hs d parts)) in
  (forall pre h post,
     hs = pre ++ h :: post ->
     Forall (fun x => is_date_header x = false) pre ->
     is_date_header h = true ->
     extract_email_date format_date message =
       match format_date (header_value h) with
       | Ok s => s
       | Raise _ => header_value h
       end) /\
  (Forall (fun x => is_date_header x = false) hs ->
     extract_email_date format_date message = "") /\
  extract_email_date format_date (mkMessage labels None) = "".
Proof.
  cbv zeta. unfold extract_email_date. cbn [payload]. split; [|split].
  - intros pre h post -> Hpre Hh. rewrite first_date_header_skip by exact Hpre.
    simpl. unfold is_date_header in Hh. now rewrite Hh.
  - intros H. rewrite <- (app_nil_r hs). now rewrite first_date_header_skip.
  - reflexivity.
Qed.

Lemma extract_email_date_first_header_witness :
  extract_email_date (fun _ => Raise DecodeError)
    (mkMessage [] (Some (mkPart "text/plain"
                           [mkHeader "From" "a@b.c"; mkHeader "DATE" "=NOW()";
                            mkHeader "Date" "later"] None [])))
  = "=NOW()".
Proof.
  apply (proj1 (extract_email_date_first_header (fun _ => Raise DecodeError) []
                  "text/plain"
                  [mkHeader "From" "a@b.c"; mkHeader "DATE" "=NOW()"; mkHeader "Date" "later"]
                  None [])
           [mkHeader "From" "a@b.c"] (mkHeader "DATE" "=NOW()") [mkHeader "Date" "later"]).
  - reflexivity.
  - constructor; [reflexivity | constructor].
  - reflexivity.
Defined.

(** ** The sheet writer and the read-state gate *)

Lemma remove_unread_labels (m : Message) (l : string) :
  In l (labelIds (remove_unread m)) <-> In l (labelIds m) /\ l <> "UNREAD".
Proof.
  unfold remove_unread. cbn [labelIds]. rewrite filter_In.
  rewrite negb_true_iff. split; intros [H1 H2]; (split; [exact H1|]).
  - intros ->. discriminate H2.
  - destruct (String.eqb l "UNREAD") eqn:E; [|reflexivity].
    apply String.eqb_eq in E. contradiction.
Qed.

Lemma remove_unread_mem (m : Message) :
  Py.mem "UNREAD" (labelIds (remove_unread m)) = false.
Proof.
  destruct (Py.mem "UNREAD" (labelIds (remove_unread m))) eqn:E; [|reflexivity].
  apply mem_spec, remove_unread_labels in E as [_ E]. contradiction.
Qed.


(** X15: the read-state gate never raises. It returns True exactly when the
    label change went through; the message then has lost UNREAD and kept its
    other labels and its payload, and no other message has changed. It
    returns False otherwise, with the mailbox as it was. Sheet and counters
    are untouched either way. *)
Theorem mark_email_as_read_outcome (fault : World -> Call -> bool)
    (message_id : string) (r : Run) :
  exists ok r',
    mark_email_as_read fault message_id r = (Ok ok, r') /\
    sheet (world r') = sheet (world r) /\
    counters r' = counters r /\
    calls (world r') = calls (world r) ++ [(MessagesModify message_id, ok)] /\
    (ok = false -> mailbox (world r') = mailbox (world r)) /\
    (ok = true ->
       exists m m',
         mailbox (world r) !! message_id = Some m /\
         mailbox (world r') !! message_id = Some m' /\
         ~ In "UNREAD" (labelIds m') /\
         (forall l, l <> "UNREAD" -> In l (labelIds m') <-> In l (labelIds m)) /\
         payload m' = payload m /\
         forall other, other <> message_id ->
           mailbox (world r') !! other = mailbox (world r) !! other).
Proof.
  unfold mark_email_as_read, try_except, bind, messages_modify, request, ret, logged.
  destruct (fault (world r) (MessagesModify message_id)).
  { eexists false, _. split; [reflexivity|]. simpl.
    repeat split; auto. discriminate. }
  destruct (mailbox (world r) !! message_id) as [m|] eqn:L.
  2:{ eexists false, _. split; [reflexivity|]. simpl.
      repeat split; auto. discriminate. }
  eexists true, _. split; [reflexivity|]. simpl.
  split; [reflexivity|]. split; [reflexivity|]. split; [reflexivity|].
  split; [discriminate|]. intros _.
  exists m, (remove_unread m). split; [reflexivity|].
  split; [apply lookup_insert_eq|].
  split; [intros H; now apply remove_unread_labels in H|].
  split; [intros l Hl; rewrite remove_unread_labels; tauto|].
  split; [reflexivity|].
  intros other Ho. now apply lookup_insert_ne.
Qed.

Lemma mark_email_as_read_outcome_witness :
  exists ok r',
    mark_email_as_read no_fault "m1" sample_run = (Ok ok, r') /\
    ok = true /\
    mailbox (world r') !! "m1" = Some (mkMessage ["INBOX"] (payload sample_message)).
Proof.
  destruct (mark_email_as_read_outcome no_fault "m1" sample_run)
    as (ok & r' & E & _).
  exists ok, r'. split; [exact E|].
  vm_compute in E. injection E as <- <-. split; reflexivity.
Defined.

(** ** The per-message loop, continued *)

Lemma build_rows_nonempty (email_data : EmailData.t) : build_rows email_data <> [].
Proof.
  unfold build_rows. destruct (EmailData.contacts email_data); discriminate.
Qed.

Section LoopFacts.

Variable fault : World -> Call -> bool.
Variable model_reply : World -> string -> string.
Variable json_loads : string -> Res value.
Variable py_repr : value -> string.
Variable b64decode_utf8 : string -> Res string.
Variable format_date : string -> Res string.

(** Everything one turn of the loop does, by outcome: no append sent; an
    append that raised; an append that returned. *)
Lemma main_step_effect (message_id : string) (r r' : Run) (res : Res unit) :
  main_step fault model_reply json_loads py_repr b64decode_utf8 format_date message_id r
    = (res, r') ->
  res = Ok tt /\
  exists pre, quiet pre = true /\
    ((calls (world r') = calls (world r) ++ pre /\
      mailbox (world r') = mailbox (world r) /\
      sheet (world r') = sheet (world r) /\
      (counters r' = counters r \/ counters r' = failed_processed_incr (counters r))) \/
     (exists values,
        calls (world r') = calls (world r) ++ pre ++ [(ValuesAppend values, false)] /\
        mailbox (world r') = mailbox (world r) /\
        sheet (world r') = sheet (world r) /\
        counters r' = sheet_updates_failed_incr (counters r)) \/
     (exists m content w parsed b,
        mailbox (world r) !! message_id = Some m /\
        In "UNREAD" (labelIds m) /\
        extract_email_content b64decode_utf8 m = Ok content /\
        content <> "" /\
        parse_ollama_response json_loads py_repr
          (model_reply w (Py.take 10000 content)) = Ok parsed /\
        let values := build_rows (email_data_of format_date message_id m parsed) in
        calls (world r') = calls (world r) ++ pre ++
                             [(ValuesAppend values, true); (MessagesModify message_id, b)] /\
        sheet (world r') = sheet (world r) ++ values /\
        counters r' = counted_success b (counters r) /\
        mailbox (world r') =
          (if b then <[message_id := remove_unread m]> (mailbox (world r))
           else mailbox (world r)))).
Proof.
  destruct r as [w c]. intros H.
  unfold main_step, process_message, try_except, bind in H.
  unfold messages_get, process_email_with_ollama, ollama_generate,
    append_single_email_to_sheet, mark_email_as_read, values_append, messages_modify,
    try_except, bind, request, lift, ret, update_counters, logged in H.
  cbn [world counters mailbox sheet calls] in H.
  destruct (fault w (MessagesGet message_id)) eqn:F1.
  { injection H as <- <-. split; [reflexivity|].
    exists [(MessagesGet message_id, false)].
    split; [reflexivity|]. left. simpl. auto. }
  destruct (mailbox w !! message_id) as [msg|] eqn:L.
  2:{ injection H as <- <-. split; [reflexivity|].
      exists [(MessagesGet message_id, false)].
      split; [reflexivity|]. left. simpl. auto. }
  cbn [world counters mailbox sheet calls] in H.
  destruct (Py.mem "UNREAD" (labelIds msg)) eqn:U; cbn [negb] in H.
  2:{ injection H as <- <-. split; [reflexivity|].
      exists [(MessagesGet message_id, true)].
      split; [reflexivity|]. left. simpl. auto. }
  apply mem_spec in U.
  destruct (extract_email_content b64decode_utf8 msg) as [content|e] eqn:X.
  2:{ injection H as <- <-. split; [reflexivity|].
      exists [(MessagesGet message_id, true)].
      split; [reflexivity|]. left. simpl. auto. }
  destruct (Py.truthy content) eqn:T; cbn [negb] in H.
  2:{ injection H as <- <-. split; [reflexivity|].
      exists [(MessagesGet message_id, true)].
      split; [reflexivity|]. left. simpl. auto. }
  apply truthy_nonempty in T.
  cbn [world counters mailbox sheet calls] in H.
  set (content' := Py.take 10000 content) in H.
  match type of H with
  | context [fault ?w' (Generate ?x)] => set (w1 := w') in H; destruct (fault w1 (Generate x))
  end.
  { injection H as <- <-. split; [reflexivity|].
    exists [(MessagesGet message_id, true); (Generate content', false)].
    split; [reflexivity|]. left. simpl. rewrite <- app_assoc. auto. }
  cbn [world counters mailbox sheet calls] in H.
  destruct (parse_ollama_response json_loads py_repr (model_reply w1 content'))
    as [parsed|] eqn:P.
  2:{ injection H as <- <-. split; [reflexivity|].
      exists [(MessagesGet message_id, true); (Generate content', true)].
      split; [reflexivity|]. left. simpl. rewrite <- app_assoc. auto. }
  cbn [world counters mailbox sheet calls] in H.
  fold (email_data_of format_date message_id msg parsed) in H.
  set (values := build_rows (email_data_of format_date message_id msg parsed)) in H.
  match type of H with
  | context [fault ?w' (ValuesAppend values)] => destruct (fault w' (ValuesAppend values))
  end.
  { cbn [world counters mailbox sheet calls] in H. injection H as <- <-.
    split; [reflexivity|].
    exists [(MessagesGet message_id, true); (Generate content', true)].
    split; [reflexivity|]. right. left. exists values. simpl.
    rewrite <- !app_assoc. auto. }
  cbn [world counters mailbox sheet calls] in H.
  unfold MARK_AS_READ_AFTER_PROCESSING in H.
  match type of H with
  | context [fault ?w' (MessagesModify ?x)] => destruct (fault w' (MessagesModify x))
  end.
  { cbn [world counters mailbox sheet calls] in H. injection H as <- <-.
    split; [reflexivity|].
    exists [(MessagesGet message_id, true); (Generate content', true)].
    split; [reflexivity|]. right. right.
    exists msg, content, w1, parsed, false. simpl.
    rewrite <- !app_assoc. auto 10. }
  cbn [world counters mailbox sheet calls] in H. rewrite L in H.
  cbn [world counters mailbox sheet calls] in H. injection H as <- <-.
  split; [reflexivity|].
  exists [(MessagesGet message_id, true); (Generate content', true)].
  split; [reflexivity|]. right. right.
  exists msg, content, w1, parsed, true. simpl.
  rewrite <- !app_assoc. auto 10.
Qed.

End LoopFacts.

Section LoopFacts2.

Variable fault : World -> Call -> bool.
Variable model_reply : World -> string -> string.
Variable json_loads : string -> Res value.
Variable py_repr : value -> string.
Variable b64decode_utf8 : string -> Res string.
Variable format_date : string -> Res string.

Local Abbreviation step := (main_step fault model_reply json_loads py_repr b64decode_utf8 format_date).
Local Abbreviation loop := (main_loop fault model_reply json_loads py_repr b64decode_utf8 format_date).

Lemma main_step_counters (message_id : string) (r : Run) :
  let c := counters r in
  let c' := counters (snd (step message_id r)) in
  c' = c \/ c' = failed_processed_incr c \/ c' = sheet_updates_failed_incr c \/
  exists b, c' = counted_success b c.
Proof.
  cbv zeta. destruct (step message_id r) as [res r'] eqn:E. cbn [snd].
  apply main_step_effect in E
    as (_ & pre & _ & [(_ & _ & _ & [H | H]) | [(v & _ & _ & _ & H)
                      | (m & ct & w & p & b & _ & _ & _ & _ & _ & _ & _ & H & _)]]);
    eauto.
Qed.

Lemma main_step_tally (message_id : string) (r : Run) :
  let c := counters r in
  let c' := counters (snd (step message_id r)) in
  successful_processed c <= successful_processed c' /\
  failed_processed c <= failed_processed c' /\
  emails_marked_read c <= emails_marked_read c' /\
  sheet_updates_successful c <= sheet_updates_successful c' /\
  sheet_updates_failed c <= sheet_updates_failed c' /\
  accounted c' <= S (accounted c) /\
  successful_processed c' + sheet_updates_successful c
    = successful_processed c + sheet_updates_successful c' /\
  emails_marked_read c' + sheet_updates_successful c
    <= emails_marked_read c + sheet_updates_successful c'.
Proof.
  cbv zeta. unfold accounted.
  destruct (main_step_counters message_id r) as [H | [H | [H | [b H]]]];
    rewrite H; destruct (counters r); try destruct b; simpl; lia.
Qed.

Lemma main_loop_tally (messages : list string) (r : Run) :
  let c := counters r in
  let c' := counters (loop messages r) in
  successful_processed c <= successful_processed c' /\
  failed_processed c <= failed_processed c' /\
  emails_marked_read c <= emails_marked_read c' /\
  sheet_updates_successful c <= sheet_updates_successful c' /\
  sheet_updates_failed c <= sheet_updates_failed c' /\
  accounted c' <= accounted c + length messages /\
  successful_processed c' + sheet_updates_successful c
    = successful_processed c + sheet_updates_successful c' /\
  emails_marked_read c' + sheet_updates_successful c
    <= emails_marked_read c + sheet_updates_successful c'.
Proof.
  cbv zeta. revert r. induction messages as [|id rest IH]; intros r.
  - simpl. lia.
  - cbn [main_loop length]. specialize (IH (snd (step id r))).
    pose proof (main_step_tally id r) as S. cbv zeta in S. lia.
Qed.

(** The sheet only grows, by one row at least for each append counted. *)
Lemma main_step_sheet (message_id : string) (r : Run) :
  let r' := snd (step message_id r) in
  exists added,
    sheet (world r') = sheet (world r) ++ added /\
    sheet_updates_successful (counters r')
      <= sheet_updates_successful (counters r) + length added.
Proof.
  cbv zeta. destruct (step message_id r) as [res r'] eqn:E. cbn [snd].
  apply main_step_effect in E
    as (_ & pre & _ & [(_ & _ & Hs & [H | H]) | [(v & _ & _ & Hs & H)
                      | (m & ct & w & p & b & _ & _ & _ & _ & _ & _ & Hs & H & _)]]).
  - exists []. rewrite app_nil_r, H. split; [exact Hs | lia].
  - exists []. rewrite app_nil_r, H. split; [exact Hs | simpl; lia].
  - exists []. rewrite app_nil_r, H. split; [exact Hs | simpl; lia].
  - eexists. split; [exact Hs|]. rewrite H.
    pose proof (build_rows_nonempty (email_data_of format_date message_id m p)) as N.
    destruct (build_rows (email_data_of format_date message_id m p)); [congruence|].
    destruct b; simpl; lia.
Qed.

Lemma main_loop_sheet (messages : list string) (r : Run) :
  let r' := loop messages r in
  exists added,
    sheet (world r') = sheet (world r) ++ added /\
    sheet_updates_successful (counters r')
      <= sheet_updates_successful (counters r) + length added.
Proof.
  cbv zeta. revert r. induction messages as [|id rest IH]; intros r.
  - exists []. simpl. rewrite app_nil_r. split; [reflexivity | lia].
  - cbn [main_loop]. destruct (IH (snd (step id r))) as (a2 & E2 & L2).
    destruct (main_step_sheet id r) as (a1 & E1 & L1). cbv zeta in E1, L1.
    exists (a1 ++ a2). rewrite E2, E1, <- app_assoc. split; [reflexivity|].
    rewrite length_app. lia.
Qed.

Lemma remove_unread_idem (m : Message) : remove_unread (remove_unread m) = remove_unread m.
Proof.
  unfold remove_unread. cbn [labelIds payload]. f_equal.
  induction (labelIds m) as [|l ls IH]; [reflexivity|]. simpl.
  destruct (negb (String.eqb l "UNREAD")) eqn:E; simpl; [rewrite E|]; now rewrite ?IH.
Qed.

(** A turn leaves every entry of the mailbox as it was, but for the message
    of the turn, which may lose UNREAD. *)
Lemma main_step_mailbox (message_id : string) (r : Run) (id : string) :
  let r' := snd (step message_id r) in
  mailbox (world r') !! id = mailbox (world r) !! id \/
  (id = message_id /\ exists m,
     mailbox (world r) !! id = Some m /\
     mailbox (world r') !! id = Some (remove_unread m)).
Proof.
  cbv zeta. destruct (step message_id r) as [res r'] eqn:E. cbn [snd].
  apply main_step_effect in E
    as (_ & pre & _ & [(_ & Hm & _) | [(v & _ & Hm & _)
                      | (m & ct & w & p & b & L & _ & _ & _ & _ & _ & _ & _ & Hm)]]).
  - left. now rewrite Hm.
  - left. now rewrite Hm.
  - rewrite Hm. destruct b; [|now left].
    destruct (decide (id = message_id)) as [-> | N].
    + right. split; [reflexivity|]. exists m. split; [exact L|].
      apply lookup_insert_eq.
    + left. now apply lookup_insert_ne.
Qed.

Lemma main_loop_mailbox (messages : list string) (r : Run) (id : string) :
  let r' := loop messages r in
  mailbox (world r') !! id = mailbox (world r) !! id \/
  (In id messages /\ exists m,
     mailbox (world r) !! id = Some m /\
     mailbox (world r') !! id = Some (remove_unread m)).
Proof.
  cbv zeta. revert r. induction messages as [|x rest IH]; intros r.
  - now left.
  - cbn [main_loop].
    destruct (IH (snd (step x r))) as [H2 | (Hin & m2 & L2 & H2)];
      destruct (main_step_mailbox x r id) as [H1 | (-> & m1 & L1 & H1)]; cbv zeta in *.
    + left. congruence.
    + right. split; [now left|]. exists m1. split; [exact L1 | congruence].
    + right. split; [now right|]. exists m2. split; congruence.
    + right. split; [now left|]. exists m1. split; [exact L1|].
      rewrite H2. rewrite H1 in L2. injection L2 as <-.
      now rewrite remove_unread_idem.
Qed.

End LoopFacts2.


(** X17: over a run no counter ever decreases, and each listed message is
    counted at most once among successful_processed, failed_processed and
    sheet_updates_failed (a message found already read is counted nowhere). *)
Theorem main_loop_counts
    (fault : World -> Call -> bool) (model_reply : World -> string -> string)
    (json_loads : string -> Res value) (py_repr : value -> string)
    (b64decode_utf8 format_date : string -> Res string)
    (messages : list string) (r : Run) :
  let c := counters r in
  let c' := counters (main_loop fault model_reply json_loads py_repr
                        b64decode_utf8 format_date messages r) in
  successful_processed c <= successful_processed c' /\
  failed_processed c <= failed_processed c' /\
  emails_marked_read c <= emails_marked_read c' /\
  sheet_updates_successful c <= sheet_updates_successful c' /\
  sheet_updates_failed c <= sheet_updates_failed c' /\
  successful_processed c' + failed_processed c' + sheet_updates_failed c'
    <= successful_processed c + failed_processed c + sheet_updates_failed c
       + length messages.
Proof.
  pose proof (main_loop_tally fault model_reply json_loads py_repr
                b64decode_utf8 format_date messages r) as H.
  cbv zeta in *. unfold accounted in H. intuition lia.
Qed.

(** X18: successful_processed and sheet_updates_successful grow together,
    and emails_marked_read never grows more than they do: from counters at
    zero, the first two are equal at the end of the run and the third is at
    most their value. *)
Theorem main_loop_accounting
    (fault : World -> Call -> bool) (model_reply : World -> string -> string)
    (json_loads : string -> Res value) (py_repr : value -> string)
    (b64decode_utf8 format_date : string -> Res string)
    (messages : list string) (w : World) :
  let c' := counters (main_loop fault model_reply json_loads py_repr
                        b64decode_utf8 format_date messages
                        (mkRun w (mkCounters 0 0 0 0 0))) in
  successful_processed c' = sheet_updates_successful c' /\
  emails_marked_read c' <= sheet_updates_successful c'.
Proof.
  pose proof (main_loop_tally fault model_reply json_loads py_repr
                b64decode_utf8 format_date messages (mkRun w (mkCounters 0 0 0 0 0))) as H.
  cbv zeta in *. cbn [counters successful_processed sheet_updates_successful
                      emails_marked_read] in H. lia.
Qed.

(** X19: the run only appends to the sheet: the rows that were there stay
    where they were, and every append counted in sheet_updates_successful
    added one row at least. *)
Theorem main_loop_sheet_append_only
    (fault : World -> Call -> bool) (model_reply : World -> string -> string)
    (json_loads : string -> Res value) (py_repr : value -> string)
    (b64decode_utf8 format_date : string -> Res string)
    (messages : list string) (r : Run) :
  let r' := main_loop fault model_reply json_loads py_repr
              b64decode_utf8 format_date messages r in
  exists added,
    sheet (world r') = sheet (world r) ++ added /\
    sheet_updates_successful (counters r')
      <= sheet_updates_successful (counters r) + length added.
Proof. apply main_loop_sheet. Qed.

(** X20: the run changes the mailbox in one way only: a listed message may
    lose its UNREAD label. No message is added or removed, no payload or
    other label changes, and a message that is not listed is left alone. *)
Theorem main_loop_mailbox_frame
    (fault : World -> Call -> bool) (model_reply : World -> string -> string)
    (json_loads : string -> Res value) (py_repr : value -> string)
    (b64decode_utf8 format_date : string -> Res string)
    (messages : list string) (r : Run) (id : string) :
  let r' := main_loop fault model_reply json_loads py_repr
              b64decode_utf8 format_date messages r in
  (mailbox (world r') !! id = mailbox (world r) !! id \/
   (In id messages /\ exists m m',
      mailbox (world r) !! id = Some m /\
      mailbox (world r') !! id = Some m' /\
      payload m' = payload m /\
      forall l, In l (labelIds m') <-> In l (labelIds m) /\ l <> "UNREAD")) /\
  (~ In id messages -> mailbox (world r') !! id = mailbox (world r) !! id).
Proof.
  cbv zeta.
  pose proof (main_loop_mailbox fault model_reply json_loads py_repr
                b64decode_utf8 format_date messages r id) as H. cbv zeta in H.
  split.
  - destruct H as [H | (Hin & m & L & H)]; [now left|].
    right. split; [exact Hin|]. exists m, (remove_unread m).
    split; [exact L|]. split; [exact H|]. split; [reflexivity|].
    intros l. apply remove_unread_labels.
  - intros N. destruct H as [H | (Hin & _)]; [exact H | contradiction].
Qed.

Lemma main_loop_mailbox_frame_witness :
  mailbox (world (main_loop no_fault sample_reply sample_loads sample_repr Ok Ok
                    ["m1"; "m3"] sample_run)) !! "m2"
  = mailbox (world sample_run) !! "m2".
Proof.
  apply (proj2 (main_loop_mailbox_frame no_fault sample_reply sample_loads sample_repr
                  Ok Ok ["m1"; "m3"] sample_run "m2")).
  simpl. intros [E | [E | []]]; discriminate E.
Defined.

(** X21: a message that was marked read is skipped when it comes again: if
    a turn has counted it in emails_marked_read, a further turn on the same
    message, with the fetch going through, sends the fetch and nothing else,
    and changes no counter, no row and no label. *)
Theorem marked_message_skipped
    (fault : World -> Call -> bool) (model_reply : World -> string -> string)
    (json_loads : string -> Res value) (py_repr : value -> string)
    (b64decode_utf8 format_date : string -> Res string)
    (message_id : string) (r : Run) :
  let r1 := snd (main_step fault model_reply json_loads py_repr
                   b64decode_utf8 format_date message_id r) in
  let r2 := snd (main_step fault model_reply json_loads py_repr
                   b64decode_utf8 format_date message_id r1) in
  emails_marked_read (counters r1) = S (emails_marked_read (counters r)) ->
  fault (world r1) (MessagesGet message_id) = false ->
  counters r2 = counters r1 /\
  sheet (world r2) = sheet (world r1) /\
  mailbox (world r2) = mailbox (world r1) /\
  calls (world r2) = calls (world r1) ++ [(MessagesGet message_id, true)].
Proof.
  cbv zeta.
  destruct (main_step fault model_reply json_loads py_repr
              b64decode_utf8 format_date message_id r) as [res r1] eqn:E.
  cbn [snd]. intros Hm F.
  assert (L : exists m, mailbox (world r1) !! message_id = Some (remove_unread m)).
  { apply main_step_effect in E
      as (_ & pre & _ & [(_ & _ & _ & [H | H]) | [(v & _ & _ & _ & H)
                        | (m & ct & w & p & b & _ & _ & _ & _ & _ & _ & _ & H & Hb)]]);
      rewrite H in Hm.
    - lia.
    - simpl in Hm. lia.
    - simpl in Hm. lia.
    - destruct b; [|simpl in Hm; lia].
      exists m. rewrite Hb. apply lookup_insert_eq. }
  destruct L as [m L]. destruct r1 as [w1 c1]. cbn [world counters] in *.
  unfold main_step, process_message, try_except, bind.
  unfold messages_get, request, lift, ret, update_counters, logged.
  cbn [world counters]. rewrite F, L. cbn [world counters labelIds].
  rewrite remove_unread_mem. simpl. auto.
Qed.

Lemma marked_message_skipped_witness :
  let r1 := snd (main_step no_fault sample_reply sample_loads sample_repr
                   Ok Ok "m1" sample_run) in
  let r2 := snd (main_step no_fault sample_reply sample_loads sample_repr
                   Ok Ok "m1" r1) in
  counters r2 = counters r1 /\
  sheet (world r2) = sheet (world r1) /\
  mailbox (world r2) = mailbox (world r1) /\
  calls (world r2) = calls (world r1) ++ [(MessagesGet "m1", true)].
Proof.
  apply (marked_message_skipped no_fault sample_reply sample_loads sample_repr
           Ok Ok "m1" sample_run); reflexivity.
Defined.



(** X23: a failure before the append costs one message and nothing else.
    When the fetch raises, or the extraction of the fetched unread message
    raises, or the model call on its content raises, the turn adds one to
    failed_processed, leaves every other counter, the sheet and the mailbox
    as they were, and sends neither an append nor a label change. *)
Theorem main_step_failure_counted
    (fault : World -> Call -> bool) (model_reply : World -> string -> string)
    (json_loads : string -> Res value) (py_repr : value -> string)
    (b64decode_utf8 format_date : string -> Res string)
    (message_id : string) (r : Run) :
  let r' := snd (main_step fault model_reply json_loads py_repr
                   b64decode_utf8 format_date message_id r) in
  ((exists e, fst (messages_get fault message_id r) = Raise e) \/
   (exists msg e,
      fst (messages_get fault message_id r) = Ok msg /\
      In "UNREAD" (labelIds msg) /\
      extract_email_content b64decode_utf8 msg = Raise e) \/
   (exists msg content,
      fst (messages_get fault message_id r) = Ok msg /\
      In "UNREAD" (labelIds msg) /\
      extract_email_content b64decode_utf8 msg = Ok content /\
      content <> "" /\
      fault (world (snd (messages_get fault message_id r)))
            (Generate (Py.take 10000 content)) = true)) ->
  counters r' = failed_processed_incr (counters r) /\
  sheet (world r') = sheet (world r) /\
  mailbox (world r') = mailbox (world r) /\
  quiet (sent_by r r') = true.
Proof.
  cbv zeta. destruct r as [w c]. unfold sent_by.
  unfold main_step, process_message, try_except, bind.
  unfold process_email_with_ollama, ollama_generate.
  unfold messages_get, request, lift, ret, update_counters, logged.
  cbn [world counters mailbox sheet calls fst snd].
  intros [[e H] | [(msg & e & H & U & X) | (msg & content & H & U & X & N & G)]].
  - destruct (fault w (MessagesGet message_id)).
    + cbn [world counters mailbox sheet calls fst snd].
      rewrite drop_app_length. auto.
    + destruct (mailbox w !! message_id); [discriminate H|].
      cbn [world counters mailbox sheet calls fst snd].
      rewrite drop_app_length. auto.
  - destruct (fault w (MessagesGet message_id)); [discriminate H|].
    destruct (mailbox w !! message_id) as [m|]; [|discriminate H].
    cbn [fst] in H. injection H as ->.
    apply mem_spec in U. cbn [world counters mailbox sheet calls fst snd].
    rewrite U, X. cbn [negb world counters mailbox sheet calls fst snd].
    rewrite drop_app_length. auto.
  - destruct (fault w (MessagesGet message_id)); [discriminate H|].
    destruct (mailbox w !! message_id) as [m|]; [|discriminate H].
    cbn [fst] in H. injection H as ->.
    apply mem_spec in U. apply truthy_nonempty in N.
    cbn [world counters mailbox sheet calls fst snd] in *.
    rewrite U, X, N. cbn [negb world counters mailbox sheet calls fst snd].
    rewrite G. cbn [world counters mailbox sheet calls fst snd].
    rewrite <- app_assoc, drop_app_length. auto.
Qed.

Lemma main_step_failure_counted_witness :
  let r' := snd (main_step no_fault sample_reply sample_loads sample_repr
                   Ok Ok "gone" sample_run) in
  counters r' = mkCounters 0 1 0 0 0 /\
  sheet (world r') = [] /\
  mailbox (world r') = mailbox sample_world /\
  quiet (sent_by sample_run r') = true.
Proof.
  apply (main_step_failure_counted no_fault sample_reply sample_loads sample_repr
           Ok Ok "gone" sample_run).
  left. exists ServiceError. reflexivity.
Defined.

(** ** Provisioning the sheet *)

Section SheetFacts.

Variable sheet_fault : list (SheetCall * bool) -> SheetCall -> bool.
Variable sheet_titles : list (SheetCall * bool) -> list string.
Variable range_values : list (SheetCall * bool) -> string -> list (list string).

(** Every way [test_sheet_access] can go, request by request. *)
Lemma test_sheet_access_cases (log : list (SheetCall * bool)) :
  let A1G1 := ValuesGet (SHEET_NAME +:+ "!A1:G1") in
  let AA := ValuesGet (SHEET_NAME +:+ "!A:A") in
  let log2 := log ++ [(SpreadsheetsGet, true)] ++ [(A1G1, true)] in
  let range := row_range (length (range_values log2 (SHEET_NAME +:+ "!A:A")) + 1) in
  exists ok sent,
    test_sheet_access sheet_fault sheet_titles range_values log = (Ok ok, log ++ sent) /\
    ((ok = false /\ sent = [(SpreadsheetsGet, false)] /\
      sheet_fault log SpreadsheetsGet = true) \/
     (ok = false /\ sent = [(SpreadsheetsGet, true)] /\
      ~ In SHEET_NAME (sheet_titles log)) \/
     (In SHEET_NAME (sheet_titles log) /\
      ((ok = false /\ sent = [(SpreadsheetsGet, true); (A1G1, false)]) \/
       (ok = false /\ sent = [(SpreadsheetsGet, true); (A1G1, true); (AA, false)]) \/
       (ok = false /\
        sent = [(SpreadsheetsGet, true); (A1G1, true); (AA, true);
                (ValuesUpdate range [test_row_values], false)]) \/
       (ok = false /\
        sent = [(SpreadsheetsGet, true); (A1G1, true); (AA, true);
                (ValuesUpdate range [test_row_values], true);
                (ValuesClear range, false)]) \/
       (ok = true /\
        sent = [(SpreadsheetsGet, true); (A1G1, true); (AA, true);
                (ValuesUpdate range [test_row_values], true);
                (ValuesClear range, true)])))).
Proof.
  cbv zeta. unfold test_sheet_access, sheet_try, sheet_bind, sheet_request, sheet_ret.
  destruct (sheet_fault log SpreadsheetsGet) eqn:F.
  { exists false, [(SpreadsheetsGet, false)]. split; [reflexivity|]. left. auto. }
  destruct (Py.mem SHEET_NAME (sheet_titles log)) eqn:T; cbn [negb].
  2:{ exists false, [(SpreadsheetsGet, true)]. split; [reflexivity|].
      right. left. repeat split. intros H. apply mem_spec in H. congruence. }
  apply mem_spec in T.
  destruct (sheet_fault (log ++ [(SpreadsheetsGet, true)])
              (ValuesGet (SHEET_NAME +:+ "!A1:G1"))).
  { eexists false, _. rewrite <- ?app_assoc. split; [reflexivity|].
    right. right. split; [exact T|]. left. split; reflexivity. }
  match goal with
  | |- context [sheet_fault ?l (ValuesGet (SHEET_NAME +:+ "!A:A"))] =>
      destruct (sheet_fault l (ValuesGet (SHEET_NAME +:+ "!A:A")))
  end.
  { eexists false, _. rewrite <- ?app_assoc. split; [reflexivity|].
    right. right. split; [exact T|]. right. left. split; reflexivity. }
  fold (row_range (length (range_values
                             ((log ++ [(SpreadsheetsGet, true)])
                                ++ [(ValuesGet (SHEET_NAME +:+ "!A1:G1"), true)])
                             (SHEET_NAME +:+ "!A:A")) + 1)).
  rewrite <- !app_assoc.
  set (range := row_range _).
  match goal with
  | |- context [sheet_fault ?l (ValuesUpdate range ?v)] =>
      destruct (sheet_fault l (ValuesUpdate range v))
  end.
  { eexists false, _. rewrite <- ?app_assoc. split; [reflexivity|].
    right. right. split; [exact T|]. right. right. left. split; reflexivity. }
  match goal with
  | |- context [sheet_fault ?l (ValuesClear range)] =>
      destruct (sheet_fault l (ValuesClear range))
  end.
  { eexists false, _. rewrite <- ?app_assoc. split; [reflexivity|].
    right. right. split; [exact T|]. right. right. right. left. split; reflexivity. }
  eexists true, _. rewrite <- ?app_assoc. split; [reflexivity|].
  right. right. split; [exact T|]. right. right. right. right. split; reflexivity.
Qed.

End SheetFacts.

(** X24: the access test never raises. It answers True only when its five
    requests returned, the last two being the write of the test row and the
    clearing of the same range; it answers False, after the metadata request
    alone, when the sheet name is not among the titles; it writes to no range
    but the row after those column A reads; and when the clearing raises, the
    answer is False and the test row written stays. *)
Theorem test_sheet_access_outcome
    (sheet_fault : list (SheetCall * bool) -> SheetCall -> bool)
    (sheet_titles : list (SheetCall * bool) -> list string)
    (range_values : list (SheetCall * bool) -> string -> list (list string))
    (log : list (SheetCall * bool)) :
  let A1G1 := ValuesGet (SHEET_NAME +:+ "!A1:G1") in
  let AA := ValuesGet (SHEET_NAME +:+ "!A:A") in
  let rows := range_values (log ++ [(SpreadsheetsGet, true)] ++ [(A1G1, true)])
                (SHEET_NAME +:+ "!A:A") in
  let range := row_range (length rows + 1) in
  exists ok sent,
    test_sheet_access sheet_fault sheet_titles range_values log = (Ok ok, log ++ sent) /\
    (ok = true ->
       sent = [(SpreadsheetsGet, true); (A1G1, true); (AA, true);
               (ValuesUpdate range [test_row_values], true);
               (ValuesClear range, true)]) /\
    (sheet_fault log SpreadsheetsGet = false ->
     ~ In SHEET_NAME (sheet_titles log) ->
       ok = false /\ sent = [(SpreadsheetsGet, true)]) /\
    (forall c b, In (c, b) sent -> is_write c = true ->
       c = ValuesUpdate range [test_row_values] \/ c = ValuesClear range) /\
    (In (ValuesClear range, false) sent ->
       ok = false /\ In (ValuesUpdate range [test_row_values], true) sent).
Proof.
  cbv zeta.
  destruct (test_sheet_access_cases sheet_fault sheet_titles range_values log)
    as (ok & sent & E & H). cbv zeta in H.
  exists ok, sent. split; [exact E|].
  destruct H as [(-> & -> & F) | [(-> & -> & N)
               | (T & [(-> & ->) | [(-> & ->) | [(-> & ->) | [(-> & ->) | (-> & ->)]]]])]].
  - split; [discriminate|]. split; [congruence|].
    split; [|simpl; intuition discriminate].
    intros c b [[= <- <-] | []]. discriminate.
  - split; [discriminate|]. split; [auto|].
    split; [|simpl; intuition discriminate].
    intros c b [[= <- <-] | []]. discriminate.
  - split; [discriminate|]. split; [contradiction|].
    split; [|simpl; intuition discriminate].
    intros c b [[= <- <-] | [[= <- <-] | []]]; discriminate.
  - split; [discriminate|]. split; [contradiction|].
    split; [|simpl; intuition discriminate].
    intros c b [[= <- <-] | [[= <- <-] | [[= <- <-] | []]]]; discriminate.
  - split; [discriminate|]. split; [contradiction|].
    split; [|simpl; intuition discriminate].
    intros c b [[= <- <-] | [[= <- <-] | [[= <- <-] | [[= <- <-] | []]]]];
      try discriminate. now left.
  - split; [discriminate|]. split; [contradiction|].
    split; [|intros _; split; [reflexivity | simpl; auto 10]].
    intros c b [[= <- <-] | [[= <- <-] | [[= <- <-] | [[= <- <-] | [[= <- <-] | []]]]]];
      try discriminate; auto.
  - split; [reflexivity|]. split; [contradiction|].
    split; [|simpl; intuition discriminate].
    intros c b [[= <- <-] | [[= <- <-] | [[= <- <-] | [[= <- <-] | [[= <- <-] | []]]]]];
      try discriminate; auto.
Qed.

Lemma test_sheet_access_outcome_witness :
  test_sheet_access clear_fault sample_titles sample_range [] =
    (Ok false,
     [(SpreadsheetsGet, true); (ValuesGet "Sheet 1!A1:G1", true);
      (ValuesGet "Sheet 1!A:A", true);
      (ValuesUpdate "Sheet 1!A4:G4" [test_row_values], true);
      (ValuesClear "Sheet 1!A4:G4", false)]).
Proof.
  destruct (test_sheet_access_outcome clear_fault sample_titles sample_range [])
    as (ok & sent & E & _ & _ & _ & H).
  rewrite E. vm_compute in E. injection E as <- <-. reflexivity.
Defined.

(** X25: the header setup never raises, not even when its write does. It
    reads the first row; when the read raises, or when the first row has
    seven cells or more (whatever they hold), it writes nothing; when the
    sheet is empty or its first row is shorter, it sends one write, of the
    seven headers, to the first row. *)
Theorem setup_sheet_headers_outcome
    (sheet_fault : list (SheetCall * bool) -> SheetCall -> bool)
    (range_values : list (SheetCall * bool) -> string -> list (list string))
    (log : list (SheetCall * bool)) :
  let read := ValuesGet (SHEET_NAME +:+ "!A1:G1") in
  let write := ValuesUpdate (SHEET_NAME +:+ "!A1:G1") [headers_row] in
  let existing := range_values log (SHEET_NAME +:+ "!A1:G1") in
  exists sent,
    setup_sheet_headers sheet_fault range_values log = (Ok tt, log ++ sent) /\
    (sheet_fault log read = true -> sent = [(read, false)]) /\
    (sheet_fault log read = false ->
     (exists first rest, existing = first :: rest /\ 7 <= length first) ->
       sent = [(read, true)]) /\
    (sheet_fault log read = false ->
     (existing = [] \/ exists first rest, existing = first :: rest /\ length first < 7) ->
       exists b, sent = [(read, true); (write, b)]).
Proof.
  cbv zeta. unfold setup_sheet_headers, sheet_try, sheet_bind, sheet_request, sheet_ret.
  destruct (sheet_fault log (ValuesGet (SHEET_NAME +:+ "!A1:G1"))) eqn:F.
  { eexists. split; [reflexivity|]. repeat split; auto; discriminate. }
  destruct (range_values log (SHEET_NAME +:+ "!A1:G1")) as [|first rest] eqn:R.
  - match goal with
    | |- context [sheet_fault ?l (ValuesUpdate ?a ?v)] =>
        destruct (sheet_fault l (ValuesUpdate a v))
    end; eexists; rewrite <- ?app_assoc; (split; [reflexivity|]).
    + split; [discriminate|]. split; [intros _ (f & t & H & _); discriminate H|].
      intros _ _. now exists false.
    + split; [discriminate|]. split; [intros _ (f & t & H & _); discriminate H|].
      intros _ _. now exists true.
  - destruct (length first <? 7) eqn:L.
    + apply Nat.ltb_lt in L.
      match goal with
      | |- context [sheet_fault ?l (ValuesUpdate ?a ?v)] =>
          destruct (sheet_fault l (ValuesUpdate a v))
      end; eexists; rewrite <- ?app_assoc; (split; [reflexivity|]).
      * split; [discriminate|].
        split; [intros _ (f & t & [= <- <-] & H); lia|].
        intros _ _. now exists false.
      * split; [discriminate|].
        split; [intros _ (f & t & [= <- <-] & H); lia|].
        intros _ _. now exists true.
    + apply Nat.ltb_ge in L. eexists. split; [reflexivity|].
      split; [discriminate|]. split; [reflexivity|].
      intros _ [H | (f & t & [= <- <-] & H)]; [discriminate H | lia].
Qed.

Lemma setup_sheet_headers_outcome_witness :
  setup_sheet_headers no_sheet_fault sample_range [] =
    (Ok tt, [(ValuesGet "Sheet 1!A1:G1", true)]) /\
  exists b,
    setup_sheet_headers no_sheet_fault (fun _ _ => [["Name"; "Email"]]) [] =
      (Ok tt, [(ValuesGet "Sheet 1!A1:G1", true);
               (ValuesUpdate "Sheet 1!A1:G1" [headers_row], b)]).
Proof.
  split.
  - destruct (setup_sheet_headers_outcome no_sheet_fault sample_range [])
      as (sent & E & _ & H & _).
    rewrite E. rewrite H; [reflexivity | reflexivity |].
    exists headers_row, []. split; [reflexivity | simpl; lia].
  - destruct (setup_sheet_headers_outcome no_sheet_fault (fun _ _ => [["Name"; "Email"]]) [])
      as (sent & E & _ & _ & H).
    destruct H as [b ->]; [reflexivity | |].
    + right. exists ["Name"; "Email"], []. split; [reflexivity | simpl; lia].
    + exists b. exact E.
Defined.

(** ** Credentials *)

Section AuthFacts.

Variable from_authorized_user_file : string -> Res Credentials.
Variable refresh : Credentials -> Res Credentials.
Variable run_flow : Res Credentials.

Lemma load_token_files (fs : Files) :
  let '(creds, fs') := load_token from_authorized_user_file fs in
  credentials_file fs' = credentials_file fs /\
  match creds with
  | Some c =>
      fs' = fs /\
      exists content,
        token_file fs = Some content /\
        from_authorized_user_file content = Ok c /\
        (scopes c = [] \/ missing_scopes c = false)
  | None => token_file fs' = None
  end.
Proof.
  unfold load_token. destruct (token_file fs) as [content|] eqn:T.
  - destruct (from_authorized_user_file content) as [c|e] eqn:L.
    + destruct (scopes c) as [|s ss] eqn:S; cbn [andb].
      * split; [reflexivity|]. split; [reflexivity|]. exists content. auto.
      * destruct (missing_scopes c) eqn:M.
        -- split; reflexivity.
        -- split; [reflexivity|]. split; [reflexivity|]. exists content. auto.
    + split; reflexivity.
  - split; [reflexivity | exact T].
Qed.

Lemma renew_credentials_files (creds : option Credentials) (fs : Files) :
  let '(result, fs') := renew_credentials refresh run_flow creds fs in
  credentials_file fs' = credentials_file fs /\
  match result with
  | Granted c => token_file fs' = Some (to_json c)
  | _ => fs' = fs
  end.
Proof.
  unfold renew_credentials.
  destruct creds as [c|].
  - destruct (expired c && refresh_token c).
    + destruct (refresh c) as [c'|e]; [split; reflexivity|].
      destruct (negb (credentials_file fs)); [split; reflexivity|].
      destruct run_flow; split; reflexivity.
    + split; reflexivity.
  - destruct (negb (credentials_file fs)); [split; reflexivity|].
    destruct run_flow; split; reflexivity.
Qed.

End AuthFacts.

(** X26: the credentials returned are on file. When the function returns
    credentials, either they are the stored token, loaded, valid and with no
    required scope missing, and no file has changed; or token.json now holds
    their JSON. credentials.json is never touched. *)
Theorem get_google_credentials_persisted
    (from_authorized_user_file : string -> Res Credentials)
    (refresh : Credentials -> Res Credentials) (run_flow : Res Credentials)
    (fs : Files) :
  let '(result, fs') :=
    get_google_credentials from_authorized_user_file refresh run_flow fs in
  credentials_file fs' = credentials_file fs /\
  forall c, result = Granted c ->
    (fs' = fs /\ valid c = true /\
     (scopes c = [] \/ forall s, In s SCOPES -> In s (scopes c)) /\
     exists content,
       token_file fs = Some content /\ from_authorized_user_file content = Ok c) \/
    token_file fs' = Some (to_json c).
Proof.
  unfold get_google_credentials.
  pose proof (load_token_files from_authorized_user_file fs) as L.
  destruct (load_token from_authorized_user_file fs) as [creds fs1].
  destruct L as [C1 L].
  assert (R : forall o,
             let '(result, fs') := renew_credentials refresh run_flow o fs1 in
             credentials_file fs' = credentials_file fs /\
             forall c, result = Granted c -> token_file fs' = Some (to_json c)).
  { intros o. pose proof (renew_credentials_files refresh run_flow o fs1) as R.
    destruct (renew_credentials refresh run_flow o fs1) as [result fs2].
    destruct R as [C2 R]. split; [congruence|]. intros c ->. exact R. }
  destruct creds as [c|].
  - destruct (valid c) eqn:V.
    + split; [exact C1|]. intros c' [= <-]. left.
      destruct L as (-> & content & T & F & S). split; [reflexivity|].
      split; [exact V|]. split; [|now exists content].
      destruct S as [S | S]; [now left | right].
      intros s Hs. unfold missing_scopes in S.
      destruct (Py.mem s (scopes c)) eqn:M; [now apply mem_spec in M|].
      assert (X : existsb (fun s => negb (Py.mem s (scopes c))) SCOPES = true).
      { apply existsb_exists. exists s. split; [exact Hs | now rewrite M]. }
      congruence.
    + specialize (R (Some c)).
      destruct (renew_credentials refresh run_flow (Some c) fs1) as [result fs2].
      destruct R as [C2 R]. split; [exact C2|]. intros c' H. right. now apply R.
  - specialize (R None).
    destruct (renew_credentials refresh run_flow None fs1) as [result fs2].
    destruct R as [C2 R]. split; [exact C2|]. intros c' H. right. now apply R.
Qed.

Lemma get_google_credentials_persisted_witness :
  token_file (snd (get_google_credentials (fun _ => Raise DecodeError) Ok (Ok full_token)
                     (mkFiles None true)))
  = Some (to_json full_token).
Proof.
  pose proof (get_google_credentials_persisted (fun _ => Raise DecodeError) Ok
                (Ok full_token) (mkFiles None true)) as H.
  destruct (get_google_credentials (fun _ => Raise DecodeError) Ok (Ok full_token)
              (mkFiles None true)) as [result fs'] eqn:E.
  destruct H as [_ H]. vm_compute in E. injection E as <- <-.
  destruct (H full_token eq_refl) as [(X & _) | X]; [discriminate X | exact X].
Defined.

(** X27: a stored token that loads with the four required scopes (the
    scopes the loader is asked for at line 41) and is valid is returned as it
    is: the scope check finds nothing missing, token.json is not removed,
    nothing is written, and neither the refresh nor the interactive flow is
    tried. *)
Theorem get_google_credentials_stored_token
    (from_authorized_user_file : string -> Res Credentials)
    (refresh : Credentials -> Res Credentials) (run_flow : Res Credentials)
    (fs : Files) (content : string) (stored : Credentials) :
  token_file fs = Some content ->
  from_authorized_user_file content = Ok stored ->
  (forall s, In s SCOPES -> In s (scopes stored)) ->
  valid stored = true ->
  get_google_credentials from_authorized_user_file refresh run_flow fs =
    (Granted stored, fs).
Proof.
  intros T L S V.
  assert (M : missing_scopes stored = false).
  { unfold missing_scopes.
    destruct (existsb (fun s => negb (Py.mem s (scopes stored))) SCOPES) eqn:E;
      [|reflexivity].
    apply existsb_exists in E as (s & Hs & E). apply negb_true_iff in E.
    specialize (S s Hs). apply mem_spec in S. congruence. }
  unfold get_google_credentials, load_token. rewrite T, L, M, andb_false_r.
  now rewrite V.
Qed.

Lemma get_google_credentials_stored_token_witness :
  get_google_credentials (fun _ => Ok full_token) (fun _ => Raise ServiceError)
    (Raise ServiceError) (mkFiles (Some "new") false)
  = (Granted full_token, mkFiles (Some "new") false).
Proof.
  apply (get_google_credentials_stored_token (fun _ => Ok full_token)
           (fun _ => Raise ServiceError) (Raise ServiceError)
           (mkFiles (Some "new") false) "new" full_token).
  - reflexivity.
  - reflexivity.
  - intros s H. exact H.
  - reflexivity.
Defined.

(** X28: stored credentials that are not valid and cannot be refreshed (not
    expired, or without refresh token) are written back to token.json and
    returned as they are: neither the refresh nor the interactive flow is
    tried, and credentials.json is not needed. *)
Theorem get_google_credentials_unrefreshable
    (from_authorized_user_file : string -> Res Credentials)
    (refresh : Credentials -> Res Credentials) (run_flow : Res Credentials)
    (fs : Files) (content : string) (stored : Credentials) :
  token_file fs = Some content ->
  from_authorized_user_file content = Ok stored ->
  (scopes stored = [] \/ forall s, In s SCOPES -> In s (scopes stored)) ->
  valid stored = false ->
  expired stored = false \/ refresh_token stored = false ->
  get_google_credentials from_authorized_user_file refresh run_flow fs =
    (Granted stored, write_token stored fs).
Proof.
  intros T L S V X.
  assert (M : (match scopes stored with [] => false | _ => true end)
              && missing_scopes stored = false).
  { destruct S as [-> | S]; [reflexivity|]. apply andb_false_iff. right.
    unfold missing_scopes.
    destruct (existsb (fun s => negb (Py.mem s (scopes stored))) SCOPES) eqn:E;
      [|reflexivity].
    apply existsb_exists in E as (s & Hs & E). apply negb_true_iff in E.
    specialize (S s Hs). apply mem_spec in S. congruence. }
  unfold get_google_credentials, load_token. rewrite T, L, M, V.
  unfold renew_credentials.
  assert (R : expired stored && refresh_token stored = false).
  { destruct X as [-> | ->]; [reflexivity | apply andb_false_r]. }
  now rewrite R.
Qed.

Lemma get_google_credentials_unrefreshable_witness :
  get_google_credentials (fun _ => Ok stale_token) (fun _ => Raise ServiceError)
    (Raise ServiceError) (mkFiles (Some "stale") false)
  = (Granted stale_token, mkFiles (Some "stale") false).
Proof.
  apply (get_google_credentials_unrefreshable (fun _ => Ok stale_token)
           (fun _ => Raise ServiceError) (Raise ServiceError)
           (mkFiles (Some "stale") false) "stale" stale_token).
  - reflexivity.
  - reflexivity.
  - right. intros s H. exact H.
  - reflexivity.
  - left. reflexivity.
Defined.

(** ** The response parser with its prints *)

Lemma all_chars_app (p : ascii -> bool) (a b : string) :
  all_chars p (a +:+ b) = all_chars p a && all_chars p b.
Proof.
  induction a as [|c a IH]; [reflexivity|].
  rewrite app_cons. simpl. now rewrite IH, andb_assoc.
Qed.

Lemma all_chars_total (p : ascii -> bool) (s : string) :
  (forall c, p c = true) -> all_chars p s = true.
Proof.
  intros H. induction s as [|c s IH]; [reflexivity|]. simpl. now rewrite H, IH.
Qed.

Section PrintingFacts.

Variable encodable : ascii -> bool.
Variable exn_text : Raised -> string.
Variable json_loads : string -> Res value.
Variable py_repr : value -> string.

(** On a standard output that has every character, the prints change
    nothing: the parser returns the record [parse_ollama_response] computes. *)
Lemma parse_ollama_response_printing_agrees (out : string) (r : ExtractionRecord) :
  (forall c, encodable c = true) ->
  parse_ollama_response json_loads py_repr out = Ok r ->
  parse_ollama_response_printing encodable exn_text json_loads py_repr out = Returned r.
Proof.
  intros H. unfold parse_ollama_response, parse_ollama_response_printing,
    parse_try_printing, print, and_then.
  rewrite !(all_chars_total encodable _ H).
  destruct (parse_try json_loads py_repr out) as [[res|]|e].
  - rewrite !(all_chars_total encodable _ H). now intros [= <-].
  - now intros [= <-].
  - destruct e; rewrite ?(all_chars_total encodable _ H); now intros [= <-].
Qed.

(** Nothing but the UnicodeEncodeError of a print leaves the parser. *)
Lemma parse_ollama_response_printing_raises (out : string) (e : Raised) :
  parse_ollama_response_printing encodable exn_text json_loads py_repr out = Raising e ->
  e = UnicodeEncodeError.
Proof.
  unfold parse_ollama_response_printing, parse_try_printing, print, and_then.
  repeat match goal with
         | |- context [if ?b then _ else _] => destruct b
         | |- context [match parse_try ?a ?b ?c with _ => _ end] =>
             destruct (parse_try a b c) as [[?|]|[]]
         end; congruence.
Qed.

End PrintingFacts.

(** C2: the parser can raise. When the span between the braces is not JSON,
    the handler of [json.JSONDecodeError] prints the whole raw output (line
    200); if standard output cannot encode one of its characters, that print
    raises UnicodeEncodeError inside the handler, where nothing catches it,
    and the parser raises instead of returning the fallback. The first 200
    characters, printed at line 154, and the text of the decoding error are
    taken to print. *)
Theorem parse_ollama_response_print_raises
    (encodable : ascii -> bool) (exn_text : Raised -> string)
    (json_loads : string -> Res value) (py_repr : value -> string)
    (out js : string) :
  all_chars encodable
    ("  Debug - Raw Ollama output: " +:+ Py.take 200 out +:+ "...") = true ->
  Re.search_braces out = Some js ->
  json_loads js = Raise JSONDecodeError ->
  all_chars encodable
    ("  Error - JSON parsing failed: " +:+ exn_text (Body JSONDecodeError)) = true ->
  all_chars encodable out = false ->
  parse_ollama_response_printing encodable exn_text json_loads py_repr out
  = Raising UnicodeEncodeError.
Proof.
  intros P1 S J H1 N.
  unfold parse_ollama_response_printing, parse_try_printing, print, and_then.
  rewrite P1. unfold parse_try. rewrite S, J. cbn [res_bind].
  rewrite H1. rewrite all_chars_app, N, andb_false_r. reflexivity.
Qed.

Lemma parse_ollama_response_print_raises_witness :
  parse_ollama_response_printing ascii_stdout sample_exn_text sample_loads sample_repr
    unprintable_output = Raising UnicodeEncodeError.
Proof.
  apply (parse_ollama_response_print_raises ascii_stdout sample_exn_text
           sample_loads sample_repr unprintable_output unprintable_output).
  - vm_compute. reflexivity.
  - vm_compute. reflexivity.
  - vm_compute. reflexivity.
  - vm_compute. reflexivity.
  - vm_compute. reflexivity.
Defined.
